(** * biosim-server: verification of the request layer, the run activities
    and the caching contracts

  Shallow embedding of
    - biosim_server/biosim_runs/models.py
    - biosim_server/api/main.py
    - biosim_server/workflows/simulate/biosim_activities.py
    - biosim_server/common/biosim1_client/biosim_service_rest.py
  together with models of the collaborators those files call but which
  live in other modules of the repository (archive store, run-record
  cache, messages of the verification workflows).

  The embedding comes first, one module per source module; then the
  vocabulary of the statements and sample data; then the lemmas and
  theorems, one module of facts per embedded module.  Python calls are
  outcomes ([Return] or [Raise]); the endpoints of [api/main.py] run in a
  state-and-exception monad over the world they talk to. *)

From Stdlib Require Import Ascii ZArith QArith Lia.
From stdpp Require Import base list strings gmap.
From Equations Require Import Equations.

Set Default Proof Using "Type".

(* ===================================================================== *)
(** * Python values: strings, exceptions, outcomes                        *)
(* ===================================================================== *)

Module Py.

(** ** Strings *)

(** [c in s] for a one-character needle. *)
Fixpoint contains (c : ascii) (s : string) : bool :=
  match s with
  | EmptyString => false
  | String a s' => if Ascii.eqb a c then true else contains c s'
  end.

(** [s.find(c)] for a one-character needle: lowest index, or -1. *)
Fixpoint find (c : ascii) (s : string) : Z :=
  match s with
  | EmptyString => (-1)%Z
  | String a s' =>
      if Ascii.eqb a c then 0%Z
      else let r := find c s' in
           if (r <? 0)%Z then (-1)%Z else (r + 1)%Z
  end.

(** [s.split(c)] for a one-character separator: never empty, one more
    piece than there are separators. *)
Fixpoint split (c : ascii) (s : string) : list string :=
  match s with
  | EmptyString => [EmptyString]
  | String a s' =>
      if Ascii.eqb a c then EmptyString :: split c s'
      else match split c s' with
           | [] => [String a EmptyString]
           | piece :: pieces => String a piece :: pieces
           end
  end.

(** [s1 == s2] *)
Definition eqb (s1 s2 : string) : bool := bool_decide (s1 = s2).

(** ** Exceptions

    The classes raised or caught in the embedded code.  [CancelledError]
    derives from [BaseException] only, every other class from
    [Exception]; [str_of] is [str(e)]. *)
Inductive exc : Type :=
| HTTPException (status_code : Z) (detail : string)
| ClientResponseError (status : Z) (message : string)
| ClientConnectionError (message : string)
| RPCError (message : string)
| ValueError (message : string)
| ValidationError (message : string)
| KeyError (key : string)
| AssertionError
| CancelledError.


Definition str_of (e : exc) : string :=
  match e with
  | HTTPException _ detail => detail
  | ClientResponseError _ message => message
  | ClientConnectionError message => message
  | RPCError message => message
  | ValueError message => message
  | ValidationError message => message
  | KeyError key => key
  | AssertionError => ""
  | CancelledError => ""
  end.

(** ** Outcome of a call: a value, or a raised exception *)
Inductive outcome (A : Type) : Type :=
| Return (a : A)
| Raise (e : exc).
Arguments Return {A} a.
Arguments Raise {A} e.

Definition returns {A} (o : outcome A) : bool :=
  match o with Return _ => true | Raise _ => false end.

(** Sequencing: the first raised exception ends the computation. *)
#[export] Instance outcome_ret : MRet outcome := @Return.
#[export] Instance outcome_bind : MBind outcome :=
  fun A B (f : A -> outcome B) (o : outcome A) =>
    match o with
    | Return a => f a
    | Raise e => Raise e
    end.

(** [d[k]] on a JSON object with string values. *)
Definition getitem (d : gmap string string) (k : string) : outcome string :=
  match d !! k with
  | Some v => Return v
  | None => Raise (KeyError k)
  end.

End Py.

Import Py.

(* ===================================================================== *)
(** * biosim_omex: the content-addressed archive store                    *)
(* ===================================================================== *)

Module Omex.

(** Modelled from the spec: [biosim_omex/models.py] is not among the
    sources; [OmexFile] is the spec's ArchiveRecord
    [{content_hash, storage_uri, filename, size, created_at}], whose
    identity is [content_hash]; its size is [file_size] here. *)
Record OmexFile := {
  content_hash : string;
  storage_uri : string;
  filename : string;
  file_size : nat;
  created_at : string }.

(** The upload handed to the endpoint: a file name and the bytes. *)
Record UploadFile := {
  upload_filename : string;
  upload_bytes : list Byte.byte }.

(** Modelled from the spec: the two collaborators of the store, the object
    storage ([put(bytes) -> uri], [get(uri) -> bytes]) and the document
    catalog (find-by-key and insert of rows).  [writes] counts the storage
    writes performed so far. *)
Record store := {
  objects : gmap string (list Byte.byte);
  catalog : list OmexFile;
  writes : nat }.

Definition empty : store :=
  {| objects := ∅; catalog := []; writes := 0 |}.

(** find-by-key on the catalog *)
Fixpoint get_omex_file (file_hash_md5 : string) (rows : list OmexFile)
  : option OmexFile :=
  match rows with
  | [] => None
  | row :: rows' =>
      if Py.eqb (content_hash row) file_hash_md5 then Some row
      else get_omex_file file_hash_md5 rows'
  end.

(** The hash-derived storage path. *)
Definition storage_path (file_hash_md5 : string) : string :=
  "omex/" +:+ file_hash_md5 +:+ ".omex".

Section Submit.

(** The content hash ([hash_bytes_md5] in the package's exports). *)
Variable hash_bytes_md5 : list Byte.byte -> string.

(** Modelled from the spec: [omex_storage.get_cached_omex_file_from_upload]
    is not among the sources; this is the spec's [submit(bytes)] of section
    4.1.  The hash is computed over all bytes first; an existing record
    with that hash is returned unchanged, with no storage write and no
    catalog insert; otherwise the bytes are stored under the hash-derived
    path and one catalog row is inserted. *)
Definition get_cached_omex_file_from_upload
    (now : string) (uploaded_file : UploadFile) (s : store)
  : OmexFile * store :=
  let file_hash_md5 := hash_bytes_md5 (upload_bytes uploaded_file) in
  match get_omex_file file_hash_md5 (catalog s) with
  | Some existing => (existing, s)
  | None =>
      let path := storage_path file_hash_md5 in
      let record :=
        {| content_hash := file_hash_md5;
           storage_uri := path;
           filename := upload_filename uploaded_file;
           file_size := length (upload_bytes uploaded_file);
           created_at := now |} in
      (record,
       {| objects := <[path := upload_bytes uploaded_file]> (objects s);
          catalog := catalog s ++ [record];
          writes := S (writes s) |})
  end.

(** A sequence of submissions, oldest first; the timestamp of each is
    paired with its upload. *)
Fixpoint submit_all (uploads : list (string * UploadFile)) (s : store)
  : store :=
  match uploads with
  | [] => s
  | (now, uploaded_file) :: rest =>
      submit_all rest (get_cached_omex_file_from_upload now uploaded_file s).2
  end.

End Submit.

End Omex.

(* ===================================================================== *)
(** * biosim_runs/models.py                                               *)
(* ===================================================================== *)

Module Models.

(** Field names are those of the models; where two models of the file
    share one ([id], [name], [attributes], [image_digest],
    [simulator_version]) the second carries a prefix. *)

Inductive ATTRIBUTE_VALUE_TYPE : Type :=
| AttrInt (v : Z)
| AttrFloat (v : Q)
| AttrStr (v : string)
| AttrBool (v : bool)
| AttrStrList (v : list string)
| AttrIntList (v : list Z)
| AttrFloatList (v : list Q)
| AttrBoolList (v : list bool).

Record HDF5Attribute := {
  key : string;
  value : ATTRIBUTE_VALUE_TYPE }.

Record HDF5Dataset := {
  dataset_name : string;
  shape : list Z;
  dataset_attributes : list HDF5Attribute }.

Record HDF5Group := {
  group_name : string;
  group_attributes : list HDF5Attribute;
  datasets : list HDF5Dataset }.

Record HDF5File := {
  filename : string;
  hdf5_id : string;
  uri : string;
  groups : list HDF5Group }.

Record BiosimulatorVersion := {
  id : string;
  name : string;
  version : string;
  image_url : string;
  image_digest : string;
  created : string;
  updated : string }.

Inductive BiosimSimulationRunStatus : Type :=
| CREATED | QUEUED | RUNNING | SKIPPED | PROCESSING
| SUCCEEDED | FAILED | RUN_ID_NOT_FOUND | UNKNOWN.

#[export] Instance BiosimSimulationRunStatus_eq_dec :
  EqDecision BiosimSimulationRunStatus.
Proof. solve_decision. Defined.

(** data returned by api.biosimulations.org/runs/{run_id} *)
Record BiosimSimulationRun := {
  run_id : string;
  run_name : string;
  simulator_version : BiosimulatorVersion;
  status : BiosimSimulationRunStatus;
  error_message : option string }.

(** The [field_validator('id')] of [BiosimSimulationRun]. *)
Definition validate_id (v : string) : outcome string :=
  if (Py.find "-"%char v >=? 0)%Z
  then Raise (ValueError "id must not contain any dashes, looks like a uuid")
  else Return v.

(** Constructing the model runs the field validator on [id]; a
    [ValueError] of a validator surfaces as the model's
    [ValidationError]. *)
Definition new_BiosimSimulationRun
    (id : string) (name : string) (simulator_version : BiosimulatorVersion)
    (status : BiosimSimulationRunStatus) (error_message : option string)
  : outcome BiosimSimulationRun :=
  match validate_id id with
  | Return v =>
      Return {| run_id := v; run_name := name;
                simulator_version := simulator_version;
                status := status; error_message := error_message |}
  | Raise e => Raise (ValidationError (str_of e))
  end.

Record BiosimulatorWorkflowRun := {
  workflow_id : string;
  file_hash_md5 : string;
  wr_image_digest : string;
  cache_buster : string;
  omex_file : Omex.OmexFile;
  wr_simulator_version : BiosimulatorVersion;
  biosim_run : option BiosimSimulationRun;
  hdf5_file : option HDF5File;
  database_id : option string }.

Record BiosimSimulationRunApiRequest := {
  request_name : string;
  simulator : string;
  simulatorVersion : string;
  maxTime : Z }.

End Models.

(* ===================================================================== *)
(** * biosim_verify: settings and workflow messages                        *)
(* ===================================================================== *)

Module Verify.

(** Modelled from the spec: [biosim_verify] is not among the sources.  The
    fields of [CompareSettings] are those [api/main.py] passes to its
    constructor (the spec's ComparisonSettings).  The three tolerances
    are only stored and handed on, no arithmetic is done on them here;
    they are written as the decimal numbers of the request. *)
Record CompareSettings := {
  user_description : string;
  include_outputs : bool;
  rel_tol : Q;
  abs_tol_min : Q;
  abs_tol_scale : Q;
  observables : option (list string) }.

(** Modelled from the spec: the states of a VerificationState. *)
Inductive VerifyWorkflowStatus : Type :=
| PENDING | RUNNING | COMPLETED | FAILED.

(** Modelled from the spec: the fields [api/main.py] sets on the initial
    [VerifyWorkflowOutput]. *)
Record VerifyWorkflowOutput := {
  compare_settings : CompareSettings;
  workflow_status : VerifyWorkflowStatus;
  timestamp : string;
  workflow_id : string;
  workflow_run_id : string }.

Record OmexVerifyWorkflowInput := {
  omex_file : Omex.OmexFile;
  requested_simulators : list Models.BiosimulatorVersion;
  omex_compare_settings : CompareSettings;
  cache_buster : string }.

Record RunsVerifyWorkflowInput := {
  biosimulations_run_ids : list string;
  runs_compare_settings : CompareSettings }.

End Verify.

(* ===================================================================== *)
(** * The run-record cache                                                *)
(* ===================================================================== *)

Module RunCache.

Import Models.

(** Modelled from the spec: the cache key resolver's [key_for] of section
    4.4.  [BiosimulatorWorkflowRun] stores the three components side by
    side, so the key is the triple itself. *)
Definition CacheKey : Type := string * string * string.

Definition key_for (content_hash image_digest cache_buster : string)
  : CacheKey :=
  (content_hash, image_digest, cache_buster).

Definition key_of (run : BiosimulatorWorkflowRun) : CacheKey :=
  key_for (file_hash_md5 run) (wr_image_digest run) (Models.cache_buster run).

Definition succeeded (run : BiosimulatorWorkflowRun) : bool :=
  match biosim_run run with
  | Some r => bool_decide (status r = SUCCEEDED)
  | None => false
  end.

(** Modelled from the spec: [lookup(key) -> RunRecord | None], a read of
    the run-record store for a prior SUCCEEDED record with that key. *)
Fixpoint lookup (key : CacheKey) (records : list BiosimulatorWorkflowRun)
  : option BiosimulatorWorkflowRun :=
  match records with
  | [] => None
  | run :: rest =>
      if bool_decide (key_of run = key) && succeeded run then Some run
      else lookup key rest
  end.

(** What one simulator of one verification request asks for. *)
Record SimRequest := {
  req_workflow_id : string;
  req_omex_file : Omex.OmexFile;
  req_simulator_version : BiosimulatorVersion;
  req_cache_buster : string }.

Definition request_key (req : SimRequest) : CacheKey :=
  key_for (Omex.content_hash (req_omex_file req))
          (image_digest (req_simulator_version req))
          (req_cache_buster req).

(** The record store and the number of remote submissions made so far. *)
Record state := {
  records : list BiosimulatorWorkflowRun;
  submissions : nat }.

(** Modelled from the spec: the NOT_STARTED step of the run lifecycle
    manager (section 4.3).  A reusable record short-circuits; otherwise the
    run is submitted to the remote simulator, whose terminal answer is
    [remote], and the new record is kept for later requests (its dataset
    is attached by a later step). *)
Definition run_simulator (req : SimRequest) (remote : BiosimSimulationRun)
    (st : state) : BiosimulatorWorkflowRun * state :=
  match lookup (request_key req) (records st) with
  | Some cached => (cached, st)
  | None =>
      let run :=
        {| Models.workflow_id := req_workflow_id req;
           file_hash_md5 := Omex.content_hash (req_omex_file req);
           wr_image_digest := image_digest (req_simulator_version req);
           Models.cache_buster := req_cache_buster req;
           Models.omex_file := req_omex_file req;
           wr_simulator_version := req_simulator_version req;
           biosim_run := Some remote;
           hdf5_file := None;
           database_id := None |} in
      (run, {| records := records st ++ [run];
               submissions := S (submissions st) |})
  end.

End RunCache.

(* ===================================================================== *)
(** * common/biosim1_client: the REST client of the remote services       *)
(* ===================================================================== *)

Module Biosim1Client.

Export Models (BiosimSimulationRunStatus(..)).

(** Modelled from the spec: [common/biosim1_client/models.py] and
    [common/database/data_models.py] are not among the sources.  The
    records carry the fields that [biosim_service_rest.py] and
    [biosim_activities.py] pass to their constructors; [simulatorDigest]
    is left out by the activity and hence optional.  The models of the
    same names in [biosim_runs/models.py] have other fields
    ([simulator_version], [image_url], ...) and are not the ones these two
    files import. *)
Record BiosimSimulationRun := {
  id : string;
  name : string;
  simulator : string;
  simulatorVersion : string;
  simulatorDigest : option string;
  status : BiosimSimulationRunStatus }.

Record DockerContainerInfo := {
  url : string;
  digest : string }.

Record BiosimulatorVersion := {
  sv_id : string;
  sv_name : string;
  sv_version : string;
  image : DockerContainerInfo }.

(** [BiosimSimulationRunStatus(text)]: the member with that value. *)
Definition status_of_string (text : string)
  : outcome BiosimSimulationRunStatus :=
  if Py.eqb text "CREATED" then Return CREATED
  else if Py.eqb text "QUEUED" then Return QUEUED
  else if Py.eqb text "RUNNING" then Return RUNNING
  else if Py.eqb text "SKIPPED" then Return SKIPPED
  else if Py.eqb text "PROCESSING" then Return PROCESSING
  else if Py.eqb text "SUCCEEDED" then Return SUCCEEDED
  else if Py.eqb text "FAILED" then Return FAILED
  else if Py.eqb text "RUN_ID_NOT_FOUND" then Return RUN_ID_NOT_FOUND
  else if Py.eqb text "UNKNOWN" then Return UNKNOWN
  else Raise (ValueError
                ("'" +:+ text +:+ "' is not a valid BiosimSimulationRunStatus")).

(** What an HTTP request comes back with: no connection, or a response
    with its status line and decoded JSON body. *)
Inductive reply (A : Type) : Type :=
| Unreachable (message : string)
| Response (status : Z) (reason : string) (body : A).
Arguments Unreachable {A} message.
Arguments Response {A} status reason body.

(** [resp.raise_for_status()] *)
Definition raise_for_status (status : Z) (reason : string) : outcome unit :=
  if (400 <=? status)%Z then Raise (ClientResponseError status reason)
  else Return tt.

(** One entry of the catalog endpoint's JSON array.  [sim_image] is [None]
    when the entry has no ["image"] member, otherwise the members of that
    object. *)
Record SimulatorJson := {
  sim_id : string;
  sim_name : string;
  sim_version : string;
  sim_image : option (gmap string string) }.

End Biosim1Client.

Module BiosimServiceRest.

Import Biosim1Client.

(** The remote run API: the reply to [GET /runs/<id>]. *)
Definition RunsApi : Type := string -> reply (gmap string string).

(** raises ClientResponseError if the response status is not 2xx *)
Definition get_sim_run (api : RunsApi) (simulation_run_id : string)
  : outcome BiosimSimulationRun :=
  match api ("/runs/" +:+ simulation_run_id) with
  | Unreachable message => Raise (ClientConnectionError message)
  | Response http_status reason res =>
      _ ← raise_for_status http_status reason;
      res_id ← getitem res "id";
      res_name ← getitem res "name";
      res_simulator ← getitem res "simulator";
      res_simulatorVersion ← getitem res "simulatorVersion";
      res_simulatorDigest ← getitem res "simulatorDigest";
      res_status ← getitem res "status";
      run_status ← status_of_string res_status;
      mret {| id := res_id; name := res_name; simulator := res_simulator;
              simulatorVersion := res_simulatorVersion;
              simulatorDigest := Some res_simulatorDigest;
              status := run_status |}
  end.

(** The loop of [get_simulation_versions]: entries without an image url
    and digest are dropped. *)
Fixpoint simulation_versions_of (simulation_versions_dict : list SimulatorJson)
  : list BiosimulatorVersion :=
  match simulation_versions_dict with
  | [] => []
  | sim :: rest =>
      match sim_image sim with
      | Some img =>
          match bool_decide (img ≠ ∅), img !! "url", img !! "digest" with
          | true, Some image_url, Some image_digest =>
              {| sv_id := sim_id sim; sv_name := sim_name sim;
                 sv_version := sim_version sim;
                 image := {| url := image_url; digest := image_digest |} |}
              :: simulation_versions_of rest
          | _, _, _ => simulation_versions_of rest
          end
      | None => simulation_versions_of rest
      end
  end.

(** The body of [get_simulation_versions], below its decorator. *)
Definition fetch_simulation_versions (catalog_api : reply (list SimulatorJson))
  : outcome (list BiosimulatorVersion) :=
  match catalog_api with
  | Unreachable message => Raise (ClientConnectionError message)
  | Response http_status reason simulation_versions_dict =>
      _ ← raise_for_status http_status reason;
      mret (simulation_versions_of simulation_versions_dict)
  end.

(** ** [aiocache.cached(ttl, cache=SimpleMemoryCache)]

    The memory cache holds at most one entry for the method: the value and
    the instant at which its timer deletes it.  Time is in seconds. *)
Definition SimpleMemoryCache (A : Type) : Type := option (Z * A).

Definition cache_get {A} (now : Z) (cache : SimpleMemoryCache A) : option A :=
  match cache with
  | Some (expires, v) => if (now <? expires)%Z then Some v else None
  | None => None
  end.

(** The decorator: a live entry is returned without calling the function;
    otherwise the function is called, and only a returned value is stored.
    [f] is what the wrapped function does when called at [now]. *)
Definition cached {A} (ttl : Z) (f : outcome A) (now : Z)
    (cache : SimpleMemoryCache A) : outcome A * SimpleMemoryCache A :=
  match cache_get now cache with
  | Some v => (Return v, cache)
  | None =>
      match f with
      | Return result => (Return result, Some ((now + ttl)%Z, result))
      | Raise e => (Raise e, None)
      end
  end.

Definition get_simulation_versions (catalog_api : reply (list SimulatorJson))
    (now : Z) (cache : SimpleMemoryCache (list BiosimulatorVersion))
  : outcome (list BiosimulatorVersion)
    * SimpleMemoryCache (list BiosimulatorVersion) :=
  cached 3600 (fetch_simulation_versions catalog_api) now cache.

End BiosimServiceRest.

(* ===================================================================== *)
(** * workflows/simulate/biosim_activities.py                             *)
(* ===================================================================== *)

Module Activities.

Import Biosim1Client.

Record GetSimRunInput := {
  biosim_run_id : string;
  abort_on_not_found : option bool }.

(** Truth value of an [Optional[bool]]. *)
Definition truthy (flag : option bool) : bool :=
  match flag with
  | Some true => true
  | _ => false
  end.

Definition get_sim_run (api : BiosimServiceRest.RunsApi)
    (get_sim_run_input : GetSimRunInput) : outcome BiosimSimulationRun :=
  match BiosimServiceRest.get_sim_run api (biosim_run_id get_sim_run_input) with
  | Return biosim_sim_run => Return biosim_sim_run
  | Raise (ClientResponseError e_status message) =>
      if bool_decide (e_status = 404%Z) then
        if truthy (abort_on_not_found get_sim_run_input) then
          (* return a failed simulation run rather than raising an
             exception to avoid retrying the activity *)
          Return {| id := biosim_run_id get_sim_run_input;
                    name := "";
                    simulator := "";
                    simulatorVersion := "";
                    simulatorDigest := None;
                    status := RUN_ID_NOT_FOUND |}
        else Raise (ClientResponseError e_status message)
      else Raise (ClientResponseError e_status message)
  | Raise e => Raise e
  end.

(** Modelled from the spec: the substrate's "execute retryable activity"
    primitive (section 6) is not among the sources.  An attempt that
    returns ends the execution; an attempt that raises is repeated while
    the retry budget lasts.  [activity n] is the outcome of attempt [n];
    the result carries the number of the attempt that ended it. *)
Fixpoint execute_activity {A} (retries : nat) (attempt : nat)
    (activity : nat -> outcome A) : outcome A * nat :=
  match activity attempt with
  | Return a => (Return a, attempt)
  | Raise e =>
      match retries with
      | O => (Raise e, attempt)
      | S retries' => execute_activity retries' (S attempt) activity
      end
  end.

End Activities.

(* ===================================================================== *)
(** * api/main.py                                                         *)
(* ===================================================================== *)

Module Api.

Import Verify.

(** ** The collaborators of the endpoints *)

Inductive WorkflowArgs : Type :=
| OmexVerifyArgs (input : OmexVerifyWorkflowInput)
| RunsVerifyArgs (input : RunsVerifyWorkflowInput).

(** One [start_workflow] accepted by the workflow service. *)
Record StartedWorkflow := {
  started_workflow : string;
  started_args : WorkflowArgs;
  started_task_queue : string;
  started_id : string }.

Record WorkflowHandle := {
  handle_id : string;
  handle_run_id : string }.

(** Everything outside the process that an endpoint reads or changes:
    the archive store, the catalog reply of the simulator service, the
    UUID generator (the draws to come and how many were taken), the
    workflow service (what it accepted so far, its answer to a start and
    to an output query for a given workflow id) and the clock. *)
Record World := {
  omex_store : Omex.store;
  simulator_versions_reply : outcome (list Models.BiosimulatorVersion);
  uuid4_draws : nat -> string;
  uuid4_drawn : nat;
  started : list StartedWorkflow;
  start_reply : string -> outcome string;
  query_reply : string -> outcome VerifyWorkflowOutput;
  utc_now : string }.

(** An endpoint body: runs in a world, returns or raises, leaves a world. *)
Definition M (A : Type) : Type := World -> outcome A * World.

#[export] Instance M_ret : MRet M := fun A (a : A) w => (Return a, w).
#[export] Instance M_bind : MBind M :=
  fun A B (f : A -> M B) (c : M A) w =>
    match c w with
    | (Return a, w') => f a w'
    | (Raise e, w') => (Raise e, w')
    end.

Definition lift {A} (o : outcome A) : M A := fun w => (o, w).

(** [assert cond] *)
Definition assert (cond : bool) : M unit :=
  lift (if cond then Return tt else Raise AssertionError).

Section Endpoints.

Variable hash_bytes_md5 : list Byte.byte -> string.

Definition get_cached_omex_file_from_upload (uploaded_file : Omex.UploadFile)
  : M Omex.OmexFile :=
  fun w =>
    let '(omex_file, store') :=
      Omex.get_cached_omex_file_from_upload hash_bytes_md5 (utc_now w)
        uploaded_file (omex_store w) in
    (Return omex_file,
     {| omex_store := store';
        simulator_versions_reply := simulator_versions_reply w;
        uuid4_draws := uuid4_draws w;
        uuid4_drawn := uuid4_drawn w;
        started := started w;
        start_reply := start_reply w;
        query_reply := query_reply w;
        utc_now := utc_now w |}).

(** [biosim_service.get_simulator_versions()] *)
Definition get_simulator_versions : M (list Models.BiosimulatorVersion) :=
  fun w => (simulator_versions_reply w, w).

(** [str(uuid.uuid4())] *)
Definition uuid4 : M string :=
  fun w =>
    (Return (uuid4_draws w (uuid4_drawn w)),
     {| omex_store := omex_store w;
        simulator_versions_reply := simulator_versions_reply w;
        uuid4_draws := uuid4_draws w;
        uuid4_drawn := S (uuid4_drawn w);
        started := started w;
        start_reply := start_reply w;
        query_reply := query_reply w;
        utc_now := utc_now w |}).

(** [temporal_client.start_workflow(workflow, args=[...], task_queue=...,
    id=...)]: the handle carries the requested id and the run id the
    service assigned. *)
Definition start_workflow (workflow : string) (args : WorkflowArgs)
    (task_queue : string) (id : string) : M WorkflowHandle :=
  fun w =>
    match start_reply w id with
    | Return run_id =>
        (Return {| handle_id := id; handle_run_id := run_id |},
         {| omex_store := omex_store w;
            simulator_versions_reply := simulator_versions_reply w;
            uuid4_draws := uuid4_draws w;
            uuid4_drawn := uuid4_drawn w;
            started := started w
                       ++ [{| started_workflow := workflow;
                              started_args := args;
                              started_task_queue := task_queue;
                              started_id := id |}];
            start_reply := start_reply w;
            query_reply := query_reply w;
            utc_now := utc_now w |})
    | Raise e => (Raise e, w)
    end.


(** [str(datetime.now(UTC))] *)
Definition datetime_now : M string := fun w => (Return (utc_now w), w).

(** ** Simulator resolution (the loop body of [verify_omex]) *)

(** [for sv in all_simulator_versions: if sv.id == name and sv.version ==
    version: simulator_version = sv; break] *)
Fixpoint first_with_id_and_version (name version : string)
    (all_simulator_versions : list Models.BiosimulatorVersion)
  : option Models.BiosimulatorVersion :=
  match all_simulator_versions with
  | [] => None
  | sv :: rest =>
      if Py.eqb (Models.id sv) name && Py.eqb (Models.version sv) version
      then Some sv
      else first_with_id_and_version name version rest
  end.

(** [for sv in all_simulator_versions: if sv.id == simulator:
    simulator_version = sv], without a break: [simulator_version] is the
    loop variable carried along. *)
Fixpoint last_with_id (simulator : string)
    (all_simulator_versions : list Models.BiosimulatorVersion)
    (simulator_version : option Models.BiosimulatorVersion)
  : option Models.BiosimulatorVersion :=
  match all_simulator_versions with
  | [] => simulator_version
  | sv :: rest =>
      last_with_id simulator rest
        (if Py.eqb (Models.id sv) simulator then Some sv
         else simulator_version)
  end.

Definition resolve_simulator
    (all_simulator_versions : list Models.BiosimulatorVersion)
    (simulator : string) : outcome Models.BiosimulatorVersion :=
  simulator_version ←
    (if Py.contains ":" simulator then
       match Py.split ":" simulator with
       | [name; version] =>
           Return (first_with_id_and_version name version
                     all_simulator_versions)
       | _ => Raise (ValueError "too many values to unpack (expected 2)")
       end
     else Return (last_with_id simulator all_simulator_versions None));
  match simulator_version with
  | Some sv => Return sv
  | None =>
      Raise (HTTPException 400 ("Simulator " +:+ simulator +:+ " not found."))
  end.

(** [for simulator in simulators: ... simulator_versions.append(...)] *)
Fixpoint resolve_simulators
    (all_simulator_versions : list Models.BiosimulatorVersion)
    (simulators : list string) : outcome (list Models.BiosimulatorVersion) :=
  match simulators with
  | [] => Return []
  | simulator :: rest =>
      sv ← resolve_simulator all_simulator_versions simulator;
      svs ← resolve_simulators all_simulator_versions rest;
      mret (sv :: svs)
  end.

(** ** POST /verify/omex *)
Definition verify_omex
    (uploaded_file : Omex.UploadFile) (workflow_id_prefix : string)
    (simulators : list string) (include_outputs : bool)
    (user_description : string) (rel_tol abs_tol_min abs_tol_scale : Q)
    (cache_buster : string) (observables : option (list string))
  : M VerifyWorkflowOutput :=
  omex_file ← get_cached_omex_file_from_upload uploaded_file;
  all_simulator_versions ← get_simulator_versions;
  simulator_versions ← lift (resolve_simulators all_simulator_versions
                               simulators);
  drawn ← uuid4;
  let workflow_id := workflow_id_prefix +:+ drawn in
  let compare_settings :=
    {| Verify.user_description := user_description;
       Verify.include_outputs := include_outputs;
       Verify.rel_tol := rel_tol;
       Verify.abs_tol_min := abs_tol_min;
       Verify.abs_tol_scale := abs_tol_scale;
       Verify.observables := observables |} in
  let omex_verify_workflow_input :=
    {| omex_file := omex_file;
       requested_simulators := simulator_versions;
       omex_compare_settings := compare_settings;
       Verify.cache_buster := cache_buster |} in
  workflow_handle ← start_workflow "OmexVerifyWorkflow.run"
                      (OmexVerifyArgs omex_verify_workflow_input)
                      "verification_tasks" workflow_id;
  _ ← assert (Py.eqb (handle_id workflow_handle) workflow_id);
  now ← datetime_now;
  mret {| compare_settings := compare_settings;
          workflow_status := PENDING;
          timestamp := now;
          workflow_id := workflow_id;
          workflow_run_id := handle_run_id workflow_handle |}.


(** ** POST /verify/runs *)
Definition verify_runs
    (workflow_id_prefix : string) (biosimulations_run_ids : list string)
    (include_outputs : bool) (user_description : string)
    (rel_tol abs_tol_min abs_tol_scale : Q)
    (observables : option (list string)) : M VerifyWorkflowOutput :=
  drawn ← uuid4;
  let workflow_id := workflow_id_prefix +:+ drawn in
  let compare_settings :=
    {| Verify.user_description := user_description;
       Verify.include_outputs := include_outputs;
       Verify.rel_tol := rel_tol;
       Verify.abs_tol_min := abs_tol_min;
       Verify.abs_tol_scale := abs_tol_scale;
       Verify.observables := observables |} in
  let runs_verify_workflow_input :=
    {| biosimulations_run_ids := biosimulations_run_ids;
       runs_compare_settings := compare_settings |} in
  workflow_handle ← start_workflow "RunsVerifyWorkflow.run"
                      (RunsVerifyArgs runs_verify_workflow_input)
                      "verification_tasks" workflow_id;
  _ ← assert (Py.eqb (handle_id workflow_handle) workflow_id);
  now ← datetime_now;
  mret {| compare_settings := compare_settings;
          workflow_status := PENDING;
          timestamp := now;
          workflow_id := workflow_id;
          workflow_run_id := handle_run_id workflow_handle |}.

End Endpoints.

(** The defaults of the tolerance query parameters. *)
Definition default_rel_tol : Q := 0.0001.
Definition default_abs_tol_min : Q := 0.001.
Definition default_abs_tol_scale : Q := 0.00001.

End Api.

(* ===================================================================== *)
(** * Vocabulary of the statements                                        *)
(* ===================================================================== *)

Module Spec.

(** The text form of a UUID, as [str(uuid.uuid4())] prints it: 36 characters
    with dashes at offsets 8, 13, 18 and 23. *)
Definition looks_like_uuid (v : string) : bool :=
  bool_decide (String.length v = 36)
  && bool_decide (String.get 8 v = Some "-"%char)
  && bool_decide (String.get 13 v = Some "-"%char)
  && bool_decide (String.get 18 v = Some "-"%char)
  && bool_decide (String.get 23 v = Some "-"%char).

(** The failure [verify_omex] raises for a simulator it cannot find. *)
Definition not_found (simulator : string) : exc :=
  HTTPException 400 ("Simulator " +:+ simulator +:+ " not found.").

(** A simulator argument in the documented form ['name'] or
    ['name:version']: at most one colon. *)
Definition well_formed (simulator : string) : Prop :=
  length (Py.split ":" simulator) <= 2.

(** The same world with a different answer to output queries. *)
Definition with_query_reply
    (q : string -> outcome Verify.VerifyWorkflowOutput) (w : Api.World)
  : Api.World :=
  {| Api.omex_store := Api.omex_store w;
     Api.simulator_versions_reply := Api.simulator_versions_reply w;
     Api.uuid4_draws := Api.uuid4_draws w;
     Api.uuid4_drawn := Api.uuid4_drawn w;
     Api.started := Api.started w;
     Api.start_reply := Api.start_reply w;
     Api.query_reply := q;
     Api.utc_now := Api.utc_now w |}.

(** The [CompareSettings] both endpoints build from their parameters. *)
Definition settings_of (include_outputs : bool) (user_description : string)
    (rel_tol abs_tol_min abs_tol_scale : Q)
    (observables : option (list string)) : Verify.CompareSettings :=
  {| Verify.user_description := user_description;
     Verify.include_outputs := include_outputs;
     Verify.rel_tol := rel_tol;
     Verify.abs_tol_min := abs_tol_min;
     Verify.abs_tol_scale := abs_tol_scale;
     Verify.observables := observables |}.

(** The HTTP status an endpoint answers with when it raises an
    [HTTPException]. *)
Definition http_status {A} (o : outcome A) : option Z :=
  match o with
  | Raise (HTTPException status_code _) => Some status_code
  | _ => None
  end.

(** The run [get_sim_run] hands back for an unknown id. *)
Definition not_found_run (biosim_run_id : string)
  : Biosim1Client.BiosimSimulationRun :=
  {| Biosim1Client.id := biosim_run_id;
     Biosim1Client.name := "";
     Biosim1Client.simulator := "";
     Biosim1Client.simulatorVersion := "";
     Biosim1Client.simulatorDigest := None;
     Biosim1Client.status := Models.RUN_ID_NOT_FOUND |}.

(** What holds of every archive store that submissions can produce: one
    catalog row per content hash, one storage write per row, the stored
    objects are exactly those of the rows, and every row's object is
    there. *)
Record consistent (s : Omex.store) : Prop := {
  one_row_per_hash : NoDup (map Omex.content_hash (Omex.catalog s));
  one_write_per_row : Omex.writes s = length (Omex.catalog s);
  objects_are_rows : forall path : string,
    is_Some (Omex.objects s !! path)
    <-> exists row, row ∈ Omex.catalog s
                    /\ path = Omex.storage_path (Omex.content_hash row);
  rows_are_stored : forall row, row ∈ Omex.catalog s ->
    is_Some (Omex.objects s !! Omex.storage_uri row) }.

End Spec.

(* ===================================================================== *)
(** * Sample data                                                         *)
(* ===================================================================== *)

Module Samples.

Definition copasi_4_44 : Models.BiosimulatorVersion :=
  {| Models.id := "copasi"; Models.name := "COPASI";
     Models.version := "4.44.295";
     Models.image_url := "ghcr.io/biosimulators/copasi:4.44.295";
     Models.image_digest := "sha256:1f2a3b4c5d6e7f8091a2b3c4d5e6f708";
     Models.created := "2024-06-01T00:00:00.000Z";
     Models.updated := "2024-06-01T00:00:00.000Z" |}.

Definition tellurium_2_2 : Models.BiosimulatorVersion :=
  {| Models.id := "tellurium"; Models.name := "tellurium";
     Models.version := "2.2.10";
     Models.image_url := "ghcr.io/biosimulators/tellurium:2.2.10";
     Models.image_digest := "sha256:0a1b2c3d4e5f60718293a4b5c6d7e8f9";
     Models.created := "2024-03-01T00:00:00.000Z";
     Models.updated := "2024-03-01T00:00:00.000Z" |}.

Definition copasi_4_45 : Models.BiosimulatorVersion :=
  {| Models.id := "copasi"; Models.name := "COPASI";
     Models.version := "4.45.296";
     Models.image_url := "ghcr.io/biosimulators/copasi:4.45.296";
     Models.image_digest := "sha256:7c9cd076eeec494a653353777e42561a";
     Models.created := "2024-11-01T00:00:00.000Z";
     Models.updated := "2024-11-01T00:00:00.000Z" |}.

(** Two copasi entries at different versions, the newer one last. *)
Definition catalog3 : list Models.BiosimulatorVersion :=
  [copasi_4_44; tellurium_2_2; copasi_4_45].

(** A stand-in for the content hash: the bytes read as text. *)
Definition sample_hash (bytes : list Byte.byte) : string :=
  String.string_of_list_byte bytes.

Definition sample_upload : Omex.UploadFile :=
  {| Omex.upload_filename := "model.omex";
     Omex.upload_bytes := [Byte.x50; Byte.x4b; Byte.x03; Byte.x04] |}.

(** A world with an empty archive store, the catalog above, a workflow
    service that accepts every start and knows no workflow. *)
Definition sample_world : Api.World :=
  {| Api.omex_store := Omex.empty;
     Api.simulator_versions_reply := Return catalog3;
     Api.uuid4_draws := fun n =>
       match n with
       | O => "3f0c2a1e-9b7d-4e6a-8c15-2d4b6f8a0c1e"
       | _ => "a8d1e2f3-0b4c-4d5e-9f60-718293a4b5c6"
       end;
     Api.uuid4_drawn := 0;
     Api.started := [];
     Api.start_reply := fun _ => Return "0195c2d4-7e3b-7a10-b1c2-d3e4f5a6b7c8";
     Api.query_reply := fun id =>
       Raise (RPCError ("workflow not found for ID: " +:+ id));
     Api.utc_now := "2025-01-15 12:00:00.000000+00:00" |}.

(** A remote that knows one run and answers 404 for every other id. *)
Definition sample_api : BiosimServiceRest.RunsApi :=
  fun path =>
    if Py.eqb path "/runs/67817a2e1f52f47f628af971"
    then Biosim1Client.Response 200 "OK"
           (list_to_map
              [("id", "67817a2e1f52f47f628af971"); ("name", "model.omex");
               ("simulator", "copasi"); ("simulatorVersion", "4.45.296");
               ("simulatorDigest", "sha256:7c9cd076eeec");
               ("status", "SUCCEEDED")])
    else Biosim1Client.Response 404 "Not Found" ∅.

Definition sample_catalog_json : list Biosim1Client.SimulatorJson :=
  [ {| Biosim1Client.sim_id := "copasi";
       Biosim1Client.sim_name := "COPASI";
       Biosim1Client.sim_version := "4.45.296";
       Biosim1Client.sim_image :=
         Some (list_to_map
                 [("url", "ghcr.io/biosimulators/copasi:4.45.296");
                  ("digest", "sha256:7c9cd076eeec")]) |};
    {| Biosim1Client.sim_id := "legacy";
       Biosim1Client.sim_name := "Legacy";
       Biosim1Client.sim_version := "1.0";
       Biosim1Client.sim_image := None |} ].

Definition sample_catalog : list Biosim1Client.BiosimulatorVersion :=
  [ {| Biosim1Client.sv_id := "copasi";
       Biosim1Client.sv_name := "COPASI";
       Biosim1Client.sv_version := "4.45.296";
       Biosim1Client.image :=
         {| Biosim1Client.url := "ghcr.io/biosimulators/copasi:4.45.296";
            Biosim1Client.digest := "sha256:7c9cd076eeec" |} |} ].

(** The catalog cache after a first, successful call at time 0. *)
Definition warm_cache
  : BiosimServiceRest.SimpleMemoryCache
      (list Biosim1Client.BiosimulatorVersion) :=
  (BiosimServiceRest.get_simulation_versions
     (Biosim1Client.Response 200 "OK" sample_catalog_json) 0 None).2.

Definition sample_omex : Omex.OmexFile :=
  {| Omex.content_hash := "9e107d9d372bb6826bd81d3542a419d6";
     Omex.storage_uri := "omex/9e107d9d372bb6826bd81d3542a419d6.omex";
     Omex.filename := "model.omex";
     Omex.file_size := 4;
     Omex.created_at := "2025-01-15 12:00:00.000000+00:00" |}.

(** One simulator of a verification request for [sample_omex]. *)
Definition request (workflow cache_buster : string) : RunCache.SimRequest :=
  {| RunCache.req_workflow_id := workflow;
     RunCache.req_omex_file := sample_omex;
     RunCache.req_simulator_version := copasi_4_45;
     RunCache.req_cache_buster := cache_buster |}.

Definition remote_run (id : string) (st : Models.BiosimSimulationRunStatus)
  : Models.BiosimSimulationRun :=
  {| Models.run_id := id; Models.run_name := "model.omex";
     Models.simulator_version := copasi_4_45;
     Models.status := st; Models.error_message := None |}.

(** No run recorded, nothing submitted. *)
Definition fresh : RunCache.state :=
  {| RunCache.records := []; RunCache.submissions := 0 |}.

End Samples.

(* ===================================================================== *)
(** * biosim_runs/models.py: the properties of the HDF5 models            *)
(* ===================================================================== *)

Module Hdf5.

Import Models.

(** [isinstance(value, list) and all(isinstance(v, str) for v in value)]:
    the value, when it is a list whose elements are all strings.  An empty
    list is one, whatever it was declared to hold. *)
Definition as_str_list (v : ATTRIBUTE_VALUE_TYPE) : option (list string) :=
  match v with
  | AttrStrList labels => Some labels
  | AttrIntList [] => Some []
  | AttrFloatList [] => Some []
  | AttrBoolList [] => Some []
  | _ => None
  end.

(** The loop of [HDF5Dataset.sedml_labels] over the attributes. *)
Fixpoint sedml_labels_of (attributes : list HDF5Attribute) : list string :=
  match attributes with
  | [] => []
  | attr :: rest =>
      if Py.eqb (key attr) "sedmlDataSetLabels" then
        match as_str_list (value attr) with
        | Some labels => labels
        | None => sedml_labels_of rest
        end
      else sedml_labels_of rest
  end.

(** [HDF5Dataset.sedml_labels] *)
Definition sedml_labels (dataset : HDF5Dataset) : list string :=
  sedml_labels_of (dataset_attributes dataset).

(** The inner loop of [HDF5File.datasets]:
    [dataset_dict[dataset.name] = dataset] for the datasets of one group. *)
Fixpoint add_datasets (dataset_dict : gmap string HDF5Dataset)
    (group_datasets : list HDF5Dataset) : gmap string HDF5Dataset :=
  match group_datasets with
  | [] => dataset_dict
  | dataset :: rest =>
      add_datasets (<[dataset_name dataset := dataset]> dataset_dict) rest
  end.

(** The outer loop, over the groups. *)
Fixpoint add_groups (dataset_dict : gmap string HDF5Dataset)
    (file_groups : list HDF5Group) : gmap string HDF5Dataset :=
  match file_groups with
  | [] => dataset_dict
  | group :: rest => add_groups (add_datasets dataset_dict (datasets group)) rest
  end.

(** [HDF5File.datasets]; the dict is taken as a finite map, the order of
    its keys is not kept. *)
Definition file_datasets (file : HDF5File) : gmap string HDF5Dataset :=
  add_groups ∅ (groups file).

(** The value of a member of the [StrEnum], [str(member)]. *)
Definition status_value (s : BiosimSimulationRunStatus) : string :=
  match s with
  | CREATED => "CREATED"
  | QUEUED => "QUEUED"
  | RUNNING => "RUNNING"
  | SKIPPED => "SKIPPED"
  | PROCESSING => "PROCESSING"
  | SUCCEEDED => "SUCCEEDED"
  | FAILED => "FAILED"
  | RUN_ID_NOT_FOUND => "RUN_ID_NOT_FOUND"
  | UNKNOWN => "UNKNOWN"
  end.

End Hdf5.

(* ===================================================================== *)
(** * biosim_service_rest.py: submission and the file sender              *)
(* ===================================================================== *)

Module RestMore.

(** Modelled from the spec: [BiosimSimulatorSpec] is declared in
    [common/biosim1_client/models.py], which is not among the sources; it
    has the two fields [run_biosim_sim] reads and writes. *)
Record BiosimSimulatorSpec := {
  simulator : string;
  version : option string }.

(** [version or "latest"]: an absent and an empty version are both false. *)
Definition or_latest (version : option string) : string :=
  match version with
  | None => "latest"
  | Some v => if Py.eqb v "" then "latest" else v
  end.

(** The remote run API: the reply to [POST /runs] with the multipart form
    of the archive bytes and the [simulationRun] request. *)
Definition SubmitApi : Type :=
  list Byte.byte -> Models.BiosimSimulationRunApiRequest ->
  Biosim1Client.reply (gmap string string).

(** This function runs the project on biosimulations.  [open_rb] is what
    opening a local path for reading gives: the bytes, or the error of the
    operating system.  The second component is [simulator_spec] as the
    call leaves it. *)
Definition run_biosim_sim
    (open_rb : string -> outcome (list Byte.byte)) (api : SubmitApi)
    (local_omex_path omex_name : string) (simulator_spec : BiosimSimulatorSpec)
  : outcome Biosim1Client.BiosimSimulationRun * BiosimSimulatorSpec :=
  let simulation_run_request :=
    {| Models.request_name := omex_name;
       Models.simulator := simulator simulator_spec;
       Models.simulatorVersion := or_latest (version simulator_spec);
       Models.maxTime := 600 |} in
  match open_rb local_omex_path with
  | Raise e => (Raise e, simulator_spec)
  | Return f =>
      match api f simulation_run_request with
      | Biosim1Client.Unreachable message =>
          (Raise (ClientConnectionError message), simulator_spec)
      | Biosim1Client.Response http_status reason res =>
          match Biosim1Client.raise_for_status http_status reason with
          | Raise e => (Raise e, simulator_spec)
          | Return _ =>
              let pinned :=
                match version simulator_spec with
                | None =>
                    v ← getitem res "simulatorVersion";
                    mret {| simulator := simulator simulator_spec;
                            version := Some v |}
                | Some _ => Return simulator_spec
                end in
              match pinned with
              | Raise e => (Raise e, simulator_spec)
              | Return simulator_spec' =>
                  (res_id ← getitem res "id";
                   res_name ← getitem res "name";
                   res_simulator ← getitem res "simulator";
                   res_simulatorVersion ← getitem res "simulatorVersion";
                   res_simulatorDigest ← getitem res "simulatorDigest";
                   res_status ← getitem res "status";
                   run_status ← Biosim1Client.status_of_string res_status;
                   mret {| Biosim1Client.id := res_id;
                           Biosim1Client.name := res_name;
                           Biosim1Client.simulator := res_simulator;
                           Biosim1Client.simulatorVersion :=
                             res_simulatorVersion;
                           Biosim1Client.simulatorDigest :=
                             Some res_simulatorDigest;
                           Biosim1Client.status := run_status |},
                   simulator_spec')
              end
          end
      end
  end.

(** A value with the proof that it is the one inspected. *)
Definition inspect {A} (a : A) : {b : A | a = b} := exist _ a eq_refl.

(** The loop of [file_sender]: [chunk = await f.read(n)], [while chunk:
    yield chunk]; [rest] is what of the file is still unread, a read takes
    up to [n] bytes off its front. *)
Equations? read_chunks (n : nat) (rest : list Byte.byte)
  : list (list Byte.byte) by wf (length rest) lt :=
  read_chunks n rest with inspect (take n rest) := {
    | exist _ [] _ => []
    | exist _ (b :: chunk) Hread =>
        (b :: chunk) :: read_chunks n (drop n rest) }.
Proof.
  destruct n as [|n]; [done|]. destruct rest as [|x rest]; [done|].
  simpl. rewrite length_drop. lia.
Qed.

(** [file_sender]: the chunks the generator yields, or what opening the
    file raised. *)
Definition file_sender (open_rb : string -> outcome (list Byte.byte))
    (file_name : string) : outcome (list (list Byte.byte)) :=
  f ← open_rb file_name;
  mret (read_chunks (64 * 1024) f).

End RestMore.

(* ===================================================================== *)
(** * biosim_activities.py: [submit_biosim_sim]                           *)
(* ===================================================================== *)

Module ActivitiesMore.

(** Modelled from the spec: [SourceOmex] is declared in
    [common/biosim1_client], which is not among the sources; it has the two
    fields the activity reads. *)
Record SourceOmex := {
  name : string;
  omex_s3_file : string }.

Record SubmitBiosimSimInput := {
  source_omex : SourceOmex;
  simulator_spec : RestMore.BiosimSimulatorSpec }.

(** The local files of the worker. *)
Definition Files : Type := gmap string (list Byte.byte).

(** Modelled from the spec: the [BiosimService] interface is not among the
    sources; of it the activity calls [run_biosim_sim], which reads the
    local files. *)
Definition BiosimService : Type :=
  Files -> string -> string -> RestMore.BiosimSimulatorSpec ->
  outcome Biosim1Client.BiosimSimulationRun * RestMore.BiosimSimulatorSpec.

(** Modelled from the spec: the [FileService] interface is not among the
    sources; [download_file] answers with the local path it wrote and the
    bytes it wrote there, or raises. *)
Definition FileService : Type := string -> outcome (string * list Byte.byte).

(** What the activity raises: the bare [Exception] of its own checks, or
    what a service raised. *)
Inductive raised : Type :=
| Exception (message : string)
| Raised (e : exc).

(** The activity, with the services as the dependencies hold them ([None]
    before initialisation); it leaves a result and the local files. *)
Definition submit_biosim_sim
    (biosim_service : option BiosimService)
    (file_service : option FileService)
    (input : SubmitBiosimSimInput) (files : Files)
  : (Biosim1Client.BiosimSimulationRun + raised) * Files :=
  match biosim_service with
  | None => (inr (Exception "Biosim service is not initialized"), files)
  | Some service =>
      match file_service with
      | None => (inr (Exception "File service is not initialized"), files)
      | Some downloads =>
          match downloads (omex_s3_file (source_omex input)) with
          | Raise e => (inr (Raised e), files)
          | Return (local_omex_path, content) =>
              let downloaded := <[local_omex_path := content]> files in
              match (service downloaded local_omex_path
                       (name (source_omex input)) (simulator_spec input)).1
              with
              | Raise e => (inr (Raised e), downloaded)
              | Return simulation_run =>
                  (* os.remove(local_omex_path) *)
                  (inl simulation_run, delete local_omex_path downloaded)
              end
          end
      end
  end.

(** [BiosimServiceRest] as a [BiosimService]: a path that is not among the
    local files raises the operating system's error for it. *)
Definition rest_service (os_error : string -> exc) (api : RestMore.SubmitApi)
  : BiosimService :=
  fun files =>
    RestMore.run_biosim_sim
      (fun path =>
         match files !! path with
         | Some content => Return content
         | None => Raise (os_error path)
         end)
      api.

End ActivitiesMore.

(* ===================================================================== *)
(** * Vocabulary of the further statements                                *)
(* ===================================================================== *)

Module SpecMore.

(** A sequence of calls of [get_simulation_versions], each at its time and
    with what the catalog endpoint would answer then: the outcomes in
    order, and the cache left. *)
Fixpoint catalog_calls
    (calls : list (Z * Biosim1Client.reply (list Biosim1Client.SimulatorJson)))
    (cache : BiosimServiceRest.SimpleMemoryCache
               (list Biosim1Client.BiosimulatorVersion))
  : list (outcome (list Biosim1Client.BiosimulatorVersion))
    * BiosimServiceRest.SimpleMemoryCache
        (list Biosim1Client.BiosimulatorVersion) :=
  match calls with
  | [] => ([], cache)
  | (now, catalog_api) :: rest =>
      let r := BiosimServiceRest.get_simulation_versions catalog_api now
                 cache in
      let rs := catalog_calls rest r.2 in
      (r.1 :: rs.1, rs.2)
  end.

(** All datasets of a file, group after group. *)
Definition all_datasets (file : Models.HDF5File) : list Models.HDF5Dataset :=
  concat (map Models.datasets (Models.groups file)).

(** The same world with another archive store. *)
Definition with_omex_store (store : Omex.store) (w : Api.World) : Api.World :=
  {| Api.omex_store := store;
     Api.simulator_versions_reply := Api.simulator_versions_reply w;
     Api.uuid4_draws := Api.uuid4_draws w;
     Api.uuid4_drawn := Api.uuid4_drawn w;
     Api.started := Api.started w;
     Api.start_reply := Api.start_reply w;
     Api.query_reply := Api.query_reply w;
     Api.utc_now := Api.utc_now w |}.

(** The same world after one more UUID was drawn. *)
Definition with_uuid_drawn (w : Api.World) : Api.World :=
  {| Api.omex_store := Api.omex_store w;
     Api.simulator_versions_reply := Api.simulator_versions_reply w;
     Api.uuid4_draws := Api.uuid4_draws w;
     Api.uuid4_drawn := S (Api.uuid4_drawn w);
     Api.started := Api.started w;
     Api.start_reply := Api.start_reply w;
     Api.query_reply := Api.query_reply w;
     Api.utc_now := Api.utc_now w |}.

End SpecMore.

(** Vocabulary and samples for the HDF5 models. *)
Module Hdf5Samples.

Import Models Hdf5.

Definition qualifies (attr : HDF5Attribute) : Prop :=
  key attr = "sedmlDataSetLabels" /\ is_Some (as_str_list (value attr)).

Definition time_attr : HDF5Attribute :=
  {| key := "uri"; value := AttrStr "simulation_1.sedml/report_1" |}.

Definition bad_labels_attr : HDF5Attribute :=
  {| key := "sedmlDataSetLabels"; value := AttrIntList [1%Z; 2%Z] |}.

Definition labels_attr : HDF5Attribute :=
  {| key := "sedmlDataSetLabels"; value := AttrStrList ["time"; "S1"; "S2"] |}.

Definition report_1 : HDF5Dataset :=
  {| dataset_name := "simulation_1.sedml/report_1"; shape := [3%Z; 101%Z];
     dataset_attributes := [time_attr; bad_labels_attr; labels_attr] |}.

Definition two_groups : HDF5File :=
  {| filename := "reports.h5"; hdf5_id := "67817a2e1f52f47f628af971";
     uri := "s3://bucket/reports.h5";
     groups :=
       [ {| group_name := "a"; group_attributes := [];
            datasets := [report_1] |};
         {| group_name := "b"; group_attributes := [];
            datasets :=
              [ {| dataset_name := "simulation_1.sedml/report_1";
                   shape := [2%Z; 5%Z]; dataset_attributes := [] |} ] |} ] |}.

End Hdf5Samples.

(** Vocabulary for the catalog client. *)
Module RestVocabulary.

Import Biosim1Client BiosimServiceRest.

(** What the loop of [get_simulation_versions] makes of one entry. *)
Definition version_of_entry (sim : SimulatorJson) : option BiosimulatorVersion :=
  match sim_image sim with
  | Some img =>
      match img !! "url", img !! "digest" with
      | Some image_url, Some image_digest =>
          Some {| sv_id := sim_id sim; sv_name := sim_name sim;
                  sv_version := sim_version sim;
                  image := {| url := image_url; digest := image_digest |} |}
      | _, _ => None
      end
  | None => None
  end.

(** The cache holds nothing, or what a call of the past fetched, until
    3600 seconds after that call. *)
Definition cache_from_past
    (past : list (Z * reply (list SimulatorJson)))
    (cache : SimpleMemoryCache (list BiosimulatorVersion)) : Prop :=
  cache = None
  \/ exists j fetched_at api catalog,
       past !! j = Some (fetched_at, api)
       /\ fetch_simulation_versions api = Return catalog
       /\ cache = Some ((fetched_at + 3600)%Z, catalog).

End RestVocabulary.

(** Vocabulary and samples for the submission. *)
Module SubmitSamples.

Import Biosim1Client RestMore.

(** The request [run_biosim_sim] builds. *)
Definition request_of (omex_name : string) (simulator_spec : BiosimSimulatorSpec)
  : Models.BiosimSimulationRunApiRequest :=
  {| Models.request_name := omex_name;
     Models.simulator := simulator simulator_spec;
     Models.simulatorVersion := or_latest (version simulator_spec);
     Models.maxTime := 600 |}.

Definition sample_open (path : string) : outcome (list Byte.byte) :=
  if Py.eqb path "/tmp/model.omex"
  then Return [Byte.x50; Byte.x4b; Byte.x03; Byte.x04]
  else Raise (ValueError path).

(** Accepts every run and resolves ["latest"] to a fixed version. *)
Definition sample_submit_api : SubmitApi :=
  fun _ request =>
    Response 201 "Created"
      (list_to_map
         [("id", "67817a2e1f52f47f628af971");
          ("name", Models.request_name request);
          ("simulator", Models.simulator request);
          ("simulatorVersion",
           if Py.eqb (Models.simulatorVersion request) "latest"
           then "4.45.296" else Models.simulatorVersion request);
          ("simulatorDigest", "sha256:7c9cd076eeec");
          ("status", "CREATED")]).

Definition refusing_api : SubmitApi :=
  fun _ _ => Response 503 "Service Unavailable" ∅.

(** Accepts the run and answers with a body that holds the resolved
    version and nothing else. *)
Definition partial_body_api : SubmitApi :=
  fun _ _ => Response 201 "Created" {["simulatorVersion" := "4.45.296"]}.

Definition copasi_latest : BiosimSimulatorSpec :=
  {| simulator := "copasi"; version := None |}.

End SubmitSamples.

(** Vocabulary and samples for the endpoints. *)
Module ApiMoreSamples.

Import Models Verify Api Spec SpecMore Samples.

Definition copasi_4_45_rebuilt : BiosimulatorVersion :=
  {| id := "copasi"; name := "COPASI"; version := "4.45.296";
     image_url := "ghcr.io/biosimulators/copasi:4.45.296";
     image_digest := "sha256:99aa076eeec494a653353777e42561a2";
     created := "2024-11-01T00:00:00.000Z";
     updated := "2024-12-01T00:00:00.000Z" |}.

(** An entry whose version text holds a colon. *)
Definition vcell_tagged : BiosimulatorVersion :=
  {| id := "vcell"; name := "Virtual Cell"; version := "7.6.0:beta";
     image_url := "ghcr.io/biosimulators/vcell:7.6.0-beta";
     image_digest := "sha256:1f3b076eeec494a653353777e42561a2";
     created := "2024-11-01T00:00:00.000Z";
     updated := "2024-11-01T00:00:00.000Z" |}.

(** The archive store after the upload of a request. *)
Definition store_after_upload (hash_bytes_md5 : list Byte.byte -> string)
    (uploaded_file : Omex.UploadFile) (w : World) : Omex.store :=
  (Omex.get_cached_omex_file_from_upload hash_bytes_md5 (utc_now w)
     uploaded_file (omex_store w)).2.

(** The sample world with a catalog service that is down. *)
Definition catalog_down : World :=
  {| omex_store := omex_store sample_world;
     simulator_versions_reply :=
       Raise (ClientConnectionError "Cannot connect to host");
     uuid4_draws := uuid4_draws sample_world;
     uuid4_drawn := uuid4_drawn sample_world;
     started := started sample_world;
     start_reply := start_reply sample_world;
     query_reply := query_reply sample_world;
     utc_now := utc_now sample_world |}.

(** The sample world with a workflow service that refuses every start. *)
Definition temporal_down : World :=
  {| omex_store := omex_store sample_world;
     simulator_versions_reply := simulator_versions_reply sample_world;
     uuid4_draws := uuid4_draws sample_world;
     uuid4_drawn := uuid4_drawn sample_world;
     started := started sample_world;
     start_reply := fun _ => Raise (RPCError "failed to connect");
     query_reply := query_reply sample_world;
     utc_now := utc_now sample_world |}.

End ApiMoreSamples.

(** Samples for the submission activity. *)
Module SubmitActivitySamples.

Import ActivitiesMore.

Definition sample_input : SubmitBiosimSimInput :=
  {| source_omex := {| name := "model.omex";
                       omex_s3_file := "omex/9e107d9d.omex" |};
     simulator_spec := SubmitSamples.copasi_latest |}.

Definition sample_downloads : FileService :=
  fun _ => Return ("/tmp/tmp8k2x.omex",
                   [Byte.x50; Byte.x4b; Byte.x03; Byte.x04]).

Definition sample_os_error (path : string) : exc := ValueError path.

End SubmitActivitySamples.

(* ===================================================================== *)
(** * Facts about the string operations                                   *)
(* ===================================================================== *)

Module PyFacts.

Lemma eqb_true (s1 s2 : string) : Py.eqb s1 s2 = true <-> s1 = s2.
Proof. unfold Py.eqb. apply bool_decide_eq_true. Qed.

Lemma eqb_false (s1 s2 : string) : Py.eqb s1 s2 = false <-> s1 <> s2.
Proof. unfold Py.eqb. apply bool_decide_eq_false. Qed.

Lemma eqb_refl (s : string) : Py.eqb s s = true.
Proof. by apply eqb_true. Qed.

Lemma find_lower_bound (c : ascii) (s : string) : (-1 <= Py.find c s)%Z.
Proof.
  induction s as [|a s IH]; simpl; [lia|].
  destruct (Ascii.eqb a c); [lia|].
  destruct (Z.ltb_spec (Py.find c s) 0); lia.
Qed.

(** [s.find(c) >= 0] says exactly that [c in s]. *)
Lemma find_nonneg_contains (c : ascii) (s : string) :
  (Py.find c s >=? 0)%Z = Py.contains c s.
Proof.
  induction s as [|a s IH]; simpl; [done|].
  destruct (Ascii.eqb a c); [done|].
  rewrite <- IH. pose proof (find_lower_bound c s).
  destruct (Z.ltb_spec (Py.find c s) 0) as [Hlt|Hge].
  - symmetry. rewrite Z.geb_leb. apply Z.leb_gt. lia.
  - rewrite !Z.geb_leb. rewrite (proj2 (Z.leb_le 0 _) Hge).
    apply Z.leb_le. lia.
Qed.

Lemma contains_app (c : ascii) (pre post : string) :
  Py.contains c (pre +:+ post) = Py.contains c pre || Py.contains c post.
Proof.
  induction pre as [|a pre IH]; simpl; [done|].
  by destruct (Ascii.eqb a c).
Qed.

Lemma contains_cons_same (c : ascii) (s : string) :
  Py.contains c (String c s) = true.
Proof. simpl. by rewrite Ascii.eqb_refl. Qed.

(** [c in s] holds exactly when [s] can be cut around an occurrence. *)
Lemma contains_decompose (c : ascii) (s : string) :
  Py.contains c s = true <-> exists pre post, s = pre +:+ String c post.
Proof.
  split.
  - induction s as [|a s IH]; simpl; [done|].
    destruct (Ascii.eqb_spec a c) as [->|Hne].
    + intros _. by exists EmptyString, s.
    + intros H. destruct (IH H) as (pre & post & ->).
      by exists (String a pre), post.
  - intros (pre & post & ->).
    rewrite contains_app, contains_cons_same. apply orb_true_r.
Qed.

Lemma contains_get (c : ascii) (s : string) (n : nat) :
  String.get n s = Some c -> Py.contains c s = true.
Proof.
  revert n. induction s as [|a s IH]; intros n; simpl; [done|].
  destruct n as [|n].
  - intros [= ->]. by rewrite Ascii.eqb_refl.
  - intros H. destruct (Ascii.eqb a c); [done|]. by apply (IH n).
Qed.

Lemma split_without_separator (c : ascii) (s : string) :
  Py.contains c s = false -> Py.split c s = [s].
Proof.
  induction s as [|a s IH]; simpl; [done|].
  destruct (Ascii.eqb a c); [done|].
  intros H. by rewrite (IH H).
Qed.

Lemma split_at_first_separator (c : ascii) (pre post : string) :
  Py.contains c pre = false ->
  Py.split c (pre +:+ String c post) = pre :: Py.split c post.
Proof.
  induction pre as [|a pre IH]; simpl.
  - intros _. by rewrite Ascii.eqb_refl.
  - destruct (Ascii.eqb a c); [done|].
    intros H. by rewrite (IH H).
Qed.

(** [name:version] splits into exactly its two halves. *)
Lemma split_name_version (name version : string) :
  Py.contains ":" name = false -> Py.contains ":" version = false ->
  Py.split ":" (name +:+ ":" +:+ version) = [name; version].
Proof.
  intros Hn Hv. change (":" +:+ version) with (String ":" version).
  by rewrite split_at_first_separator, split_without_separator.
Qed.

Lemma split_nonempty (c : ascii) (s : string) : Py.split c s <> [].
Proof.
  induction s as [|a s IH]; simpl; [done|].
  destruct (Ascii.eqb a c); [done|].
  by destruct (Py.split c s).
Qed.

(** The prefix of a string append can be cancelled. *)
Lemma append_inj_r (p s1 s2 : string) : p +:+ s1 = p +:+ s2 -> s1 = s2.
Proof. induction p as [|a p IH]; simpl; [done|]. intros [= H]. auto. Qed.

Lemma length_append (s1 s2 : string) :
  String.length (s1 +:+ s2) = String.length s1 + String.length s2.
Proof. induction s1 as [|a s1 IH]; simpl; [done|]. by rewrite IH. Qed.

(** So can the suffix. *)
Lemma append_inj_l (s1 s2 p : string) : s1 +:+ p = s2 +:+ p -> s1 = s2.
Proof.
  intros H.
  assert (Hlen : String.length s1 = String.length s2).
  { apply (f_equal String.length) in H. rewrite !length_append in H. lia. }
  revert s2 H Hlen.
  induction s1 as [|a s1 IH]; intros [|b s2]; simpl; try done.
  intros [= -> H] [= Hlen]. f_equal. by apply IH.
Qed.

End PyFacts.

(* ===================================================================== *)
(** * biosim_runs/models.py: the run-id validator                         *)
(* ===================================================================== *)

Module ModelsFacts.

Import Models Spec.

Lemma looks_like_uuid_has_dash (v : string) :
  looks_like_uuid v = true -> Py.contains "-" v = true.
Proof.
  unfold looks_like_uuid. rewrite !andb_true_iff, !bool_decide_eq_true.
  intros [[[[_ H8] _] _] _]. exact (PyFacts.contains_get _ _ _ H8).
Qed.

Example validate_id_object_id :
  validate_id "67817a2e1f52f47f628af971" = Return "67817a2e1f52f47f628af971".
Proof. reflexivity. Qed.

Example validate_id_uuid :
  validate_id "0b1c7f1e-5d3a-4c58-9a41-6f2d3e8b7c90"
  = Raise (ValueError "id must not contain any dashes, looks like a uuid").
Proof. reflexivity. Qed.

(** C9. An id with a dash in it is refused by [validate_id], and so is the
    construction of a [BiosimSimulationRun] with that id (a validation
    error); an id without a dash is returned unchanged and the model is
    built with it.  A run id written in the text form of a UUID has dashes
    and is therefore refused at construction. *)
Theorem validate_id_rejects_exactly_dashed_ids
    (v name : string) (sv : BiosimulatorVersion)
    (st : BiosimSimulationRunStatus) (err : option string) :
  validate_id v
  = (if Py.contains "-" v
     then Raise (ValueError "id must not contain any dashes, looks like a uuid")
     else Return v)
  /\ new_BiosimSimulationRun v name sv st err
     = (if Py.contains "-" v
        then Raise (ValidationError
                      "id must not contain any dashes, looks like a uuid")
        else Return {| run_id := v; run_name := name;
                       simulator_version := sv; status := st;
                       error_message := err |})
  /\ (looks_like_uuid v = true ->
      new_BiosimSimulationRun v name sv st err
      = Raise (ValidationError
                 "id must not contain any dashes, looks like a uuid")).
Proof.
  assert (Hv : validate_id v
               = if Py.contains "-" v
                 then Raise (ValueError
                        "id must not contain any dashes, looks like a uuid")
                 else Return v).
  { unfold validate_id. by rewrite PyFacts.find_nonneg_contains. }
  assert (Hn : new_BiosimSimulationRun v name sv st err
               = if Py.contains "-" v
                 then Raise (ValidationError
                        "id must not contain any dashes, looks like a uuid")
                 else Return {| run_id := v; run_name := name;
                                simulator_version := sv; status := st;
                                error_message := err |}).
  { unfold new_BiosimSimulationRun. rewrite Hv.
    by destruct (Py.contains "-" v). }
  split; [exact Hv|]. split; [exact Hn|].
  intros Hu. rewrite Hn. by rewrite (looks_like_uuid_has_dash v Hu).
Qed.

Lemma validate_id_rejects_exactly_dashed_ids_witness :
  looks_like_uuid "0b1c7f1e-5d3a-4c58-9a41-6f2d3e8b7c90" = true
  /\ new_BiosimSimulationRun "0b1c7f1e-5d3a-4c58-9a41-6f2d3e8b7c90" ""
       Samples.copasi_4_45 RUN_ID_NOT_FOUND None
     = Raise (ValidationError
                "id must not contain any dashes, looks like a uuid").
Proof.
  split; [reflexivity|].
  apply (validate_id_rejects_exactly_dashed_ids
           "0b1c7f1e-5d3a-4c58-9a41-6f2d3e8b7c90" "" Samples.copasi_4_45
           RUN_ID_NOT_FOUND None).
  reflexivity.
Defined.

End ModelsFacts.

(* ===================================================================== *)
(** * api/main.py: simulator resolution                                   *)
(* ===================================================================== *)

Module ResolveFacts.

Import Models Api Spec Samples.

Lemma last_cons_option {A} (x : A) (l : list A) :
  last (x :: l) = match last l with Some y => Some y | None => Some x end.
Proof.
  revert x. induction l as [|y l IH]; intros x; [done|].
  change (last (x :: y :: l)) with (last (y :: l)).
  rewrite (IH y). by destruct (last l).
Qed.

(** The loop without a break ends on the last match, or on what it
    started with when nothing matches. *)
Lemma last_with_id_spec (simulator : string)
    (all : list BiosimulatorVersion) (acc : option BiosimulatorVersion) :
  last_with_id simulator all acc
  = match last (filter (fun sv => id sv = simulator) all) with
    | Some sv => Some sv
    | None => acc
    end.
Proof.
  revert acc. induction all as [|sv all IH]; intros acc; simpl; [done|].
  rewrite IH, filter_cons. unfold Py.eqb.
  destruct (decide (id sv = simulator)) as [Heq|Hne].
  - rewrite bool_decide_eq_true_2 by done. rewrite last_cons_option.
    by destruct (last (filter _ all)).
  - rewrite bool_decide_eq_false_2 by done. done.
Qed.

(** The loop with a break ends on the first match. *)
Lemma first_with_id_and_version_spec (name version : string)
    (all : list BiosimulatorVersion) :
  first_with_id_and_version name version all
  = head (filter (fun sv => id sv = name /\ Models.version sv = version) all).
Proof.
  induction all as [|sv all IH]; simpl; [done|].
  rewrite filter_cons. unfold Py.eqb.
  destruct (decide (id sv = name /\ Models.version sv = version))
    as [[H1 H2]|Hne].
  - by rewrite !bool_decide_eq_true_2.
  - rewrite IH.
    destruct (decide (id sv = name)) as [H1|H1];
      [destruct (decide (Models.version sv = version)) as [H2|H2]|].
    + by destruct Hne.
    + rewrite (bool_decide_eq_false_2 _ H2). by rewrite andb_false_r.
    + by rewrite (bool_decide_eq_false_2 _ H1).
Qed.


Example resolve_by_name_takes_last :
  resolve_simulator catalog3 "copasi" = Return copasi_4_45.
Proof. reflexivity. Qed.

Example resolve_by_name_and_version :
  resolve_simulator catalog3 "copasi:4.44.295" = Return copasi_4_44.
Proof. reflexivity. Qed.

Example resolve_unknown_version :
  resolve_simulator catalog3 "copasi:9.9" = Raise (not_found "copasi:9.9").
Proof. reflexivity. Qed.

Example resolve_two_colons :
  resolve_simulator catalog3 "copasi:4.44:295"
  = Raise (ValueError "too many values to unpack (expected 2)").
Proof. reflexivity. Qed.


End ResolveFacts.

(* ===================================================================== *)
(** * api/main.py: the three endpoints                                    *)
(* ===================================================================== *)

Module ApiFacts.

Import Models Verify Api Spec Samples ResolveFacts.

Lemma split_length_contains (c : ascii) (s : string) :
  Py.contains c s = true -> 2 <= length (Py.split c s).
Proof.
  induction s as [|a s IH]; simpl; [done|].
  destruct (Ascii.eqb a c).
  - intros _. pose proof (PyFacts.split_nonempty c s).
    destruct (Py.split c s); simpl; [done|lia].
  - intros H. specialize (IH H).
    destruct (Py.split c s); simpl in *; lia.
Qed.

(** A well-formed argument resolves or is reported as not found; nothing
    else can happen to it. *)
Lemma resolve_simulator_well_formed (all : list BiosimulatorVersion)
    (simulator : string) :
  well_formed simulator ->
  (exists sv, resolve_simulator all simulator = Return sv)
  \/ resolve_simulator all simulator = Raise (not_found simulator).
Proof.
  unfold well_formed, resolve_simulator. intros Hwf.
  destruct (Py.contains ":" simulator) eqn:Hc.
  - pose proof (split_length_contains _ _ Hc) as Hlen.
    destruct (Py.split ":" simulator) as [|n [|v [|x rest]]];
      simpl in *; try lia.
    destruct (first_with_id_and_version n v all); eauto.
  - simpl. destruct (last_with_id simulator all None); eauto.
Qed.

(** The resolution loop raises what its first failing argument raises. *)
Lemma resolve_simulators_first_failure (all : list BiosimulatorVersion)
    (simulators : list string) :
  (exists simulator, simulator ∈ simulators
                     /\ Py.returns (resolve_simulator all simulator) = false) ->
  exists before bad after e,
    simulators = before ++ bad :: after
    /\ Forall (fun s => Py.returns (resolve_simulator all s) = true) before
    /\ resolve_simulator all bad = Raise e
    /\ resolve_simulators all simulators = Raise e.
Proof.
  induction simulators as [|s rest IH]; intros (bad & Hin & Hbad).
  - by apply elem_of_nil in Hin.
  - simpl. destruct (resolve_simulator all s) as [sv|e] eqn:Hs.
    + apply elem_of_cons in Hin as [->|Hin].
      { rewrite Hs in Hbad. done. }
      destruct IH as (before & bad' & after & e & -> & Hbefore & Hb & Hr);
        [by exists bad|].
      exists (s :: before), bad', after, e. repeat split; try done.
      * constructor; [by rewrite Hs|done].
      * simpl. by rewrite Hr.
    + exists [], s, rest, e. repeat split; done.
Qed.

Lemma resolve_simulators_all_return (all : list BiosimulatorVersion)
    (simulators : list string) (svs : list BiosimulatorVersion) :
  resolve_simulators all simulators = Return svs ->
  Forall (fun s => Py.returns (resolve_simulator all s) = true) simulators.
Proof.
  revert svs. induction simulators as [|s rest IH]; intros svs; simpl.
  - constructor.
  - destruct (resolve_simulator all s) as [sv|e] eqn:Hs; simpl; [|done].
    destruct (resolve_simulators all rest) as [svs'|e] eqn:Hr; simpl; [|done].
    intros _. constructor; [by rewrite Hs|]. by apply (IH svs').
Qed.

(** A request with a simulator that does not resolve against the catalog
    is refused before dispatch: [verify_omex] raises, and the workflow
    service has accepted nothing new, for none of the request's
    simulators.  What is raised is what the first such simulator raises;
    when the arguments have the documented form ['name'] or
    ['name:version'] it is the HTTP 400 "not found" of that simulator. *)
Lemma verify_omex_unresolvable_rejected_before_dispatch
    (hash_bytes_md5 : list Byte.byte -> string)
    (uploaded_file : Omex.UploadFile) (workflow_id_prefix : string)
    (simulators : list string) (include_outputs : bool)
    (user_description : string) (rel_tol abs_tol_min abs_tol_scale : Q)
    (cache_buster : string) (observables : option (list string))
    (w : World) (all : list BiosimulatorVersion) :
  simulator_versions_reply w = Return all ->
  (exists simulator, simulator ∈ simulators
                     /\ Py.returns (resolve_simulator all simulator) = false) ->
  exists (bad : string) (e : exc) (w' : World),
    verify_omex hash_bytes_md5 uploaded_file workflow_id_prefix simulators
      include_outputs user_description rel_tol abs_tol_min abs_tol_scale
      cache_buster observables w
    = (Raise e, w')
    /\ started w' = started w
    /\ bad ∈ simulators
    /\ resolve_simulator all bad = Raise e
    /\ (Forall well_formed simulators ->
        e = HTTPException 400 ("Simulator " +:+ bad +:+ " not found.")).
Proof.
  intros Hall Hex.
  destruct (resolve_simulators_first_failure all simulators Hex)
    as (before & bad & after & e & Hsims & Hbefore & Hbad & Hres).
  exists bad, e.
  unfold verify_omex, mbind, M_bind, get_cached_omex_file_from_upload,
    get_simulator_versions, lift.
  destruct (Omex.get_cached_omex_file_from_upload _ _ _ _) as [o st].
  simpl. rewrite Hall, Hres.
  eexists. split; [reflexivity|]. split; [|split; [|split]].
  - reflexivity.
  - rewrite Hsims. apply elem_of_app. right. apply elem_of_cons. by left.
  - exact Hbad.
  - intros Hwf. rewrite Forall_forall in Hwf.
    assert (Hin : bad ∈ simulators).
    { rewrite Hsims. apply elem_of_app. right. apply elem_of_cons. by left. }
    destruct (resolve_simulator_well_formed all bad (Hwf bad Hin))
      as [[sv Hsv]|Hnf]; [congruence|].
    unfold not_found in Hnf. congruence.
Qed.

(** [verify_omex] on a request whose simulators all resolve. *)
Lemma verify_omex_dispatches
    (hash_bytes_md5 : list Byte.byte -> string)
    (uploaded_file : Omex.UploadFile) (workflow_id_prefix : string)
    (simulators : list string) (include_outputs : bool)
    (user_description : string) (rel_tol abs_tol_min abs_tol_scale : Q)
    (cache_buster : string) (observables : option (list string))
    (w : World) (all svs : list BiosimulatorVersion) (run_id : string) :
  simulator_versions_reply w = Return all ->
  resolve_simulators all simulators = Return svs ->
  start_reply w (workflow_id_prefix +:+ uuid4_draws w (uuid4_drawn w))
  = Return run_id ->
  exists w',
    verify_omex hash_bytes_md5 uploaded_file workflow_id_prefix simulators
      include_outputs user_description rel_tol abs_tol_min abs_tol_scale
      cache_buster observables w
    = (Return {| compare_settings :=
                   settings_of include_outputs user_description rel_tol
                     abs_tol_min abs_tol_scale observables;
                 workflow_status := PENDING;
                 timestamp := utc_now w;
                 workflow_id :=
                   workflow_id_prefix +:+ uuid4_draws w (uuid4_drawn w);
                 workflow_run_id := run_id |}, w')
    /\ uuid4_drawn w' = S (uuid4_drawn w)
    /\ exists args,
         started w'
         = started w
           ++ [{| started_workflow := "OmexVerifyWorkflow.run";
                  started_args := OmexVerifyArgs args;
                  started_task_queue := "verification_tasks";
                  started_id :=
                    workflow_id_prefix +:+ uuid4_draws w (uuid4_drawn w) |}]
         /\ requested_simulators args = svs
         /\ Verify.cache_buster args = cache_buster.
Proof.
  intros Hall Hres Hstart.
  unfold verify_omex, mbind, M_bind, get_cached_omex_file_from_upload,
    get_simulator_versions, lift, uuid4, start_workflow, assert,
    datetime_now, mret, M_ret.
  destruct (Omex.get_cached_omex_file_from_upload _ _ _ _) as [o st].
  simpl. rewrite Hall, Hres. simpl. rewrite Hstart. simpl.
  rewrite PyFacts.eqb_refl. simpl.
  eexists. split; [reflexivity|]. split; [reflexivity|].
  eexists. split; [reflexivity|]. split; reflexivity.
Qed.

(** [verify_runs] validates nothing: it dispatches whatever it is given. *)
Lemma verify_runs_dispatches
    (workflow_id_prefix : string) (biosimulations_run_ids : list string)
    (include_outputs : bool) (user_description : string)
    (rel_tol abs_tol_min abs_tol_scale : Q)
    (observables : option (list string)) (w : World) (run_id : string) :
  start_reply w (workflow_id_prefix +:+ uuid4_draws w (uuid4_drawn w))
  = Return run_id ->
  exists w',
    verify_runs workflow_id_prefix biosimulations_run_ids include_outputs
      user_description rel_tol abs_tol_min abs_tol_scale observables w
    = (Return {| compare_settings :=
                   settings_of include_outputs user_description rel_tol
                     abs_tol_min abs_tol_scale observables;
                 workflow_status := PENDING;
                 timestamp := utc_now w;
                 workflow_id :=
                   workflow_id_prefix +:+ uuid4_draws w (uuid4_drawn w);
                 workflow_run_id := run_id |}, w')
    /\ uuid4_drawn w' = S (uuid4_drawn w)
    /\ started w'
       = started w
         ++ [{| started_workflow := "RunsVerifyWorkflow.run";
                started_args :=
                  RunsVerifyArgs
                    {| Verify.biosimulations_run_ids := biosimulations_run_ids;
                       runs_compare_settings :=
                         settings_of include_outputs user_description rel_tol
                           abs_tol_min abs_tol_scale observables |};
                started_task_queue := "verification_tasks";
                started_id :=
                  workflow_id_prefix +:+ uuid4_draws w (uuid4_drawn w) |}].
Proof.
  intros Hstart.
  unfold verify_runs, mbind, M_bind, uuid4, start_workflow, assert, lift,
    datetime_now, mret, M_ret.
  simpl. rewrite Hstart. simpl. rewrite PyFacts.eqb_refl. simpl.
  eexists. split; [reflexivity|]. split; reflexivity.
Qed.

(** Neither endpoint looks at the progress of any workflow. *)
Lemma verify_omex_ignores_progress
    (hash_bytes_md5 : list Byte.byte -> string)
    (uploaded_file : Omex.UploadFile) (workflow_id_prefix : string)
    (simulators : list string) (include_outputs : bool)
    (user_description : string) (rel_tol abs_tol_min abs_tol_scale : Q)
    (cache_buster : string) (observables : option (list string))
    (w : World) (q : string -> outcome VerifyWorkflowOutput) :
  (verify_omex hash_bytes_md5 uploaded_file workflow_id_prefix simulators
     include_outputs user_description rel_tol abs_tol_min abs_tol_scale
     cache_buster observables (with_query_reply q w)).1
  = (verify_omex hash_bytes_md5 uploaded_file workflow_id_prefix simulators
       include_outputs user_description rel_tol abs_tol_min abs_tol_scale
       cache_buster observables w).1.
Proof.
  unfold verify_omex, mbind, M_bind, get_cached_omex_file_from_upload,
    get_simulator_versions, lift, uuid4, start_workflow, assert,
    datetime_now, mret, M_ret, with_query_reply.
  simpl.
  destruct (Omex.get_cached_omex_file_from_upload _ _ _ _) as [o st].
  simpl. destruct (simulator_versions_reply w) as [all|e]; simpl; [|done].
  destruct (resolve_simulators all simulators) as [svs|e]; simpl; [|done].
  destruct (start_reply w _) as [run_id|e]; simpl; [|done].
  rewrite PyFacts.eqb_refl. done.
Qed.

Lemma verify_runs_ignores_progress
    (workflow_id_prefix : string) (biosimulations_run_ids : list string)
    (include_outputs : bool) (user_description : string)
    (rel_tol abs_tol_min abs_tol_scale : Q)
    (observables : option (list string)) (w : World)
    (q : string -> outcome VerifyWorkflowOutput) :
  (verify_runs workflow_id_prefix biosimulations_run_ids include_outputs
     user_description rel_tol abs_tol_min abs_tol_scale observables
     (with_query_reply q w)).1
  = (verify_runs workflow_id_prefix biosimulations_run_ids include_outputs
       user_description rel_tol abs_tol_min abs_tol_scale observables w).1.
Proof.
  unfold verify_runs, mbind, M_bind, uuid4, start_workflow, assert, lift,
    datetime_now, mret, M_ret, with_query_reply.
  simpl. destruct (start_reply w _) as [run_id|e]; simpl; [|done].
  rewrite PyFacts.eqb_refl. done.
Qed.


(** C8. Once the workflow service accepts the start, both [verify_omex]
    (for a request whose simulators all resolve) and [verify_runs] (which
    validates nothing) return a [VerifyWorkflowOutput] whose workflow id is
    the caller's prefix followed by the UUID just drawn and whose status is
    PENDING.  One workflow was started under that id, and the answer is the
    same whatever progress [q] any workflow has made: nothing is awaited. *)
Theorem verify_endpoints_return_pending_prefixed_uuid
    (hash_bytes_md5 : list Byte.byte -> string)
    (uploaded_file : Omex.UploadFile) (workflow_id_prefix : string)
    (simulators biosimulations_run_ids : list string) (include_outputs : bool)
    (user_description : string) (rel_tol abs_tol_min abs_tol_scale : Q)
    (cache_buster : string) (observables : option (list string))
    (w : World) (run_id : string)
    (q : string -> outcome VerifyWorkflowOutput) :
  start_reply w (workflow_id_prefix +:+ uuid4_draws w (uuid4_drawn w))
  = Return run_id ->
  let fresh_uuid := uuid4_draws w (uuid4_drawn w) in
  let expected :=
    {| compare_settings :=
         settings_of include_outputs user_description rel_tol abs_tol_min
           abs_tol_scale observables;
       workflow_status := PENDING;
       timestamp := utc_now w;
       workflow_id := workflow_id_prefix +:+ fresh_uuid;
       workflow_run_id := run_id |} in
  (forall all svs : list BiosimulatorVersion,
     simulator_versions_reply w = Return all ->
     resolve_simulators all simulators = Return svs ->
     let r := verify_omex hash_bytes_md5 uploaded_file workflow_id_prefix
                simulators include_outputs user_description rel_tol
                abs_tol_min abs_tol_scale cache_buster observables
                (with_query_reply q w) in
     r.1 = Return expected
     /\ uuid4_drawn r.2 = S (uuid4_drawn w)
     /\ map started_id (started r.2)
        = map started_id (started w) ++ [workflow_id_prefix +:+ fresh_uuid])
  /\ (let r := verify_runs workflow_id_prefix biosimulations_run_ids
                 include_outputs user_description rel_tol abs_tol_min
                 abs_tol_scale observables (with_query_reply q w) in
      r.1 = Return expected
      /\ uuid4_drawn r.2 = S (uuid4_drawn w)
      /\ map started_id (started r.2)
         = map started_id (started w) ++ [workflow_id_prefix +:+ fresh_uuid]).
Proof.
  intros Hstart fresh_uuid expected. split.
  - intros all svs Hall Hres r.
    destruct (verify_omex_dispatches hash_bytes_md5 uploaded_file
                workflow_id_prefix simulators include_outputs
                user_description rel_tol abs_tol_min abs_tol_scale
                cache_buster observables (with_query_reply q w) all svs
                run_id Hall Hres Hstart)
      as (w' & Hrun & Hdrawn & args & Hstarted & _).
    subst r. rewrite Hrun. simpl. split; [done|]. split; [done|].
    rewrite Hstarted, map_app. done.
  - intros r.
    destruct (verify_runs_dispatches workflow_id_prefix
                biosimulations_run_ids include_outputs user_description
                rel_tol abs_tol_min abs_tol_scale observables
                (with_query_reply q w) run_id Hstart)
      as (w' & Hrun & Hdrawn & Hstarted).
    subst r. rewrite Hrun. simpl. split; [done|]. split; [done|].
    rewrite Hstarted, map_app. done.
Qed.


Example verify_omex_unknown_simulator_400 :
  exists bad e w',
    verify_omex sample_hash sample_upload "omex-verification-"
      ["copasi"; "nosuchsim"; "tellurium"] false "my-omex-compare"
      default_rel_tol default_abs_tol_min default_abs_tol_scale "0" None
      sample_world
    = (Raise e, w')
    /\ started w' = started sample_world
    /\ bad ∈ ["copasi"; "nosuchsim"; "tellurium"]
    /\ resolve_simulator catalog3 bad = Raise e
    /\ (Forall well_formed ["copasi"; "nosuchsim"; "tellurium"] ->
        e = HTTPException 400 ("Simulator " +:+ bad +:+ " not found.")).
Proof.
  apply (verify_omex_unresolvable_rejected_before_dispatch sample_hash
           sample_upload "omex-verification-"
           ["copasi"; "nosuchsim"; "tellurium"] false "my-omex-compare"
           default_rel_tol default_abs_tol_min default_abs_tol_scale "0" None
           sample_world catalog3).
  - reflexivity.
  - exists "nosuchsim". split; [|reflexivity].
    apply elem_of_cons. right. apply elem_of_cons. by left.
Qed.

(** C6, where the code departs from it.  A request whose simulators
    include one with two colons and one the catalog does not know is
    refused before dispatch, no workflow is started, but not as a
    validation failure: the unpacking of [simulator.split(":")] raises
    [ValueError], which is no [HTTPException] and carries no status 400. *)
Theorem verify_omex_two_colons_refused_without_400 :
  let r := verify_omex sample_hash sample_upload "omex-verification-"
             ["copasi:4.44:295"; "nosuchsim"] false "my-omex-compare"
             default_rel_tol default_abs_tol_min default_abs_tol_scale
             "0" None sample_world in
  Py.returns (resolve_simulator catalog3 "nosuchsim") = false
  /\ r.1 = Raise (ValueError "too many values to unpack (expected 2)")
  /\ http_status r.1 = None
  /\ started r.2 = started sample_world.
Proof. vm_compute. done. Qed.

Example verify_omex_unresolvable_run :
  (verify_omex sample_hash sample_upload "omex-verification-"
     ["copasi"; "nosuchsim"; "tellurium"] false "my-omex-compare"
     default_rel_tol default_abs_tol_min default_abs_tol_scale "0" None
     sample_world).1
  = Raise (HTTPException 400 "Simulator nosuchsim not found.").
Proof. reflexivity. Qed.

Lemma verify_endpoints_return_pending_prefixed_uuid_witness :
  (verify_omex sample_hash sample_upload "omex-verification-"
     ["copasi"; "tellurium:2.2.10"] false "my-omex-compare"
     default_rel_tol default_abs_tol_min default_abs_tol_scale "0" None
     (with_query_reply (query_reply sample_world) sample_world)).1
  = Return {| compare_settings :=
                settings_of false "my-omex-compare" default_rel_tol
                  default_abs_tol_min default_abs_tol_scale None;
              workflow_status := PENDING;
              timestamp := "2025-01-15 12:00:00.000000+00:00";
              workflow_id :=
                "omex-verification-3f0c2a1e-9b7d-4e6a-8c15-2d4b6f8a0c1e";
              workflow_run_id := "0195c2d4-7e3b-7a10-b1c2-d3e4f5a6b7c8" |}.
Proof.
  apply (proj1 (verify_endpoints_return_pending_prefixed_uuid sample_hash
                  sample_upload "omex-verification-"
                  ["copasi"; "tellurium:2.2.10"] [] false "my-omex-compare"
                  default_rel_tol default_abs_tol_min default_abs_tol_scale
                  "0" None sample_world
                  "0195c2d4-7e3b-7a10-b1c2-d3e4f5a6b7c8"
                  (query_reply sample_world) eq_refl)
           catalog3
           [copasi_4_45; tellurium_2_2]
           eq_refl eq_refl).
Defined.


End ApiFacts.

(* ===================================================================== *)
(** * workflows/simulate/biosim_activities.py: [get_sim_run]              *)
(* ===================================================================== *)

Module ActivitiesFacts.

Import Biosim1Client Activities Spec Samples.

Lemma rest_get_sim_run_404 (api : BiosimServiceRest.RunsApi)
    (biosim_run_id reason : string) (body : gmap string string) :
  api ("/runs/" +:+ biosim_run_id) = Response 404 reason body ->
  BiosimServiceRest.get_sim_run api biosim_run_id
  = Raise (ClientResponseError 404 reason).
Proof. intros H. unfold BiosimServiceRest.get_sim_run. by rewrite H. Qed.

(** C4. When the remote status endpoint answers 404 for a run id,
    [get_sim_run] with [abort_on_not_found] set returns, as a value, the
    run with that id and status RUN_ID_NOT_FOUND; executed as a retryable
    activity it ends on its first attempt, whatever the retry budget and
    whatever later attempts would have met.  With the flag cleared or left
    out, the 404 error is raised to the caller. *)
Theorem get_sim_run_not_found_returned_not_raised
    (apis : nat -> BiosimServiceRest.RunsApi)
    (biosim_run_id reason : string) (body : gmap string string)
    (retries : nat) :
  apis 0 ("/runs/" +:+ biosim_run_id) = Response 404 reason body ->
  get_sim_run (apis 0)
    {| Activities.biosim_run_id := biosim_run_id;
       abort_on_not_found := Some true |}
  = Return (not_found_run biosim_run_id)
  /\ execute_activity retries 0
       (fun attempt =>
          get_sim_run (apis attempt)
            {| Activities.biosim_run_id := biosim_run_id;
               abort_on_not_found := Some true |})
     = (Return (not_found_run biosim_run_id), 0)
  /\ get_sim_run (apis 0)
       {| Activities.biosim_run_id := biosim_run_id;
          abort_on_not_found := Some false |}
     = Raise (ClientResponseError 404 reason)
  /\ get_sim_run (apis 0)
       {| Activities.biosim_run_id := biosim_run_id;
          abort_on_not_found := None |}
     = Raise (ClientResponseError 404 reason).
Proof.
  intros H. pose proof (rest_get_sim_run_404 _ _ _ _ H) as Hrest.
  assert (Habort : get_sim_run (apis 0)
                     {| Activities.biosim_run_id := biosim_run_id;
                        abort_on_not_found := Some true |}
                   = Return (not_found_run biosim_run_id)).
  { unfold get_sim_run. simpl. by rewrite Hrest. }
  split; [exact Habort|]. split.
  - destruct retries; simpl; by rewrite Habort.
  - split; unfold get_sim_run; simpl; by rewrite Hrest.
Qed.

Example get_sim_run_known :
  get_sim_run sample_api
    {| biosim_run_id := "67817a2e1f52f47f628af971";
       abort_on_not_found := Some true |}
  = Return {| id := "67817a2e1f52f47f628af971"; name := "model.omex";
              simulator := "copasi"; simulatorVersion := "4.45.296";
              simulatorDigest := Some "sha256:7c9cd076eeec";
              status := SUCCEEDED |}.
Proof. vm_compute. reflexivity. Qed.

Lemma get_sim_run_not_found_returned_not_raised_witness :
  get_sim_run sample_api
    {| biosim_run_id := "61fea4968a1c2d3e4f5a6b7c";
       abort_on_not_found := Some true |}
  = Return (not_found_run "61fea4968a1c2d3e4f5a6b7c").
Proof.
  apply (get_sim_run_not_found_returned_not_raised (fun _ => sample_api)
           "61fea4968a1c2d3e4f5a6b7c" "Not Found" ∅ 3).
  reflexivity.
Defined.

End ActivitiesFacts.

(* ===================================================================== *)
(** * biosim_service_rest.py: the cached simulator catalog                *)
(* ===================================================================== *)

Module CatalogFacts.

Import Biosim1Client BiosimServiceRest Samples.

Example fetch_sample_catalog :
  fetch_simulation_versions (Response 200 "OK" sample_catalog_json)
  = Return sample_catalog.
Proof. vm_compute. reflexivity. Qed.

Example warm_cache_holds_catalog : warm_cache = Some (3600%Z, sample_catalog).
Proof. vm_compute. reflexivity. Qed.




End CatalogFacts.

(* ===================================================================== *)
(** * biosim_omex: submissions never duplicate an archive                 *)
(* ===================================================================== *)

Module OmexFacts.

Import Omex Spec Samples.

Section Submit.

Variable hash_bytes_md5 : list Byte.byte -> string.

Local Abbreviation submit :=
  (get_cached_omex_file_from_upload hash_bytes_md5).

Lemma get_omex_file_Some (h : string) (rows : list OmexFile) (row : OmexFile) :
  get_omex_file h rows = Some row -> row ∈ rows /\ content_hash row = h.
Proof.
  induction rows as [|r rows IH]; simpl; [done|].
  destruct (Py.eqb (content_hash r) h) eqn:E.
  - intros [= <-]. split; [apply elem_of_cons; by left|].
    by apply PyFacts.eqb_true.
  - intros H. destruct (IH H). split; [apply elem_of_cons; by right|done].
Qed.

Lemma get_omex_file_None (h : string) (rows : list OmexFile) :
  get_omex_file h rows = None <-> h ∉ map content_hash rows.
Proof.
  induction rows as [|r rows IH]; simpl.
  - split; [intros _; apply not_elem_of_nil|done].
  - rewrite not_elem_of_cons.
    destruct (Py.eqb (content_hash r) h) eqn:E.
    + apply PyFacts.eqb_true in E. split; [done|]. intros [Hne _]. congruence.
    + apply PyFacts.eqb_false in E. rewrite IH. split; [|tauto].
      intros H. split; [congruence|done].
Qed.

Lemma get_omex_file_snoc (h : string) (rows : list OmexFile) (row : OmexFile) :
  get_omex_file h (rows ++ [row])
  = match get_omex_file h rows with
    | Some found => Some found
    | None => if Py.eqb (content_hash row) h then Some row else None
    end.
Proof.
  induction rows as [|r rows IH]; simpl; [done|].
  by destruct (Py.eqb (content_hash r) h).
Qed.

Lemma storage_path_inj (h1 h2 : string) :
  storage_path h1 = storage_path h2 -> h1 = h2.
Proof.
  unfold storage_path. intros H. apply PyFacts.append_inj_r in H.
  by apply PyFacts.append_inj_l in H.
Qed.

Lemma consistent_empty : consistent empty.
Proof.
  split; simpl.
  - constructor.
  - done.
  - intros path. rewrite lookup_empty. split.
    + by intros [? ?].
    + intros (row & Hin & _). by apply elem_of_nil in Hin.
  - intros row Hin. by apply elem_of_nil in Hin.
Qed.

Lemma submit_consistent (now : string) (uploaded_file : UploadFile)
    (s : store) :
  consistent s -> consistent (submit now uploaded_file s).2.
Proof.
  intros [Hnodup Hwrites Hobjs Hrows]. unfold get_cached_omex_file_from_upload.
  destruct (get_omex_file _ (catalog s)) as [existing|] eqn:Hget; simpl.
  { by split. }
  apply get_omex_file_None in Hget.
  set (h := hash_bytes_md5 (upload_bytes uploaded_file)) in *.
  split; simpl.
  - rewrite map_app. simpl. apply NoDup_app. split; [done|]. split.
    + intros x Hx Hx'. apply list_elem_of_singleton in Hx'. by subst.
    + apply NoDup_singleton.
  - rewrite length_app. simpl. lia.
  - intros path. rewrite lookup_insert_is_Some, Hobjs. split.
    + intros [<-|[_ (row & Hin & ->)]].
      * eexists. split; [apply elem_of_app; right; by apply list_elem_of_singleton|].
        done.
      * exists row. split; [apply elem_of_app; by left|done].
    + intros (row & Hin & ->). apply elem_of_app in Hin as [Hin|Hin].
      * destruct (decide (storage_path h = storage_path (content_hash row)))
          as [Heq|Hne]; [by left|].
        right. split; [done|]. by exists row.
      * apply list_elem_of_singleton in Hin. subst row. by left.
  - intros row Hin. rewrite lookup_insert_is_Some.
    apply elem_of_app in Hin as [Hin|Hin].
    + destruct (decide (storage_path h = storage_uri row)); [by left|].
      right. split; [done|]. by apply Hrows.
    + apply list_elem_of_singleton in Hin. subst row. by left.
Qed.

Lemma submit_all_consistent (uploads : list (string * UploadFile))
    (s : store) :
  consistent s -> consistent (submit_all hash_bytes_md5 uploads s).
Proof.
  revert s. induction uploads as [|[now up] uploads IH]; intros s Hs; simpl.
  - done.
  - apply IH. by apply submit_consistent.
Qed.

(** After a submission the catalog answers for its hash with the record
    that was returned. *)
Lemma submit_then_found (now : string) (up : UploadFile) (s : store) :
  get_omex_file (hash_bytes_md5 (upload_bytes up))
    (catalog (submit now up s).2)
  = Some (submit now up s).1.
Proof.
  unfold get_cached_omex_file_from_upload.
  destruct (get_omex_file _ (catalog s)) as [existing|] eqn:Hget; simpl.
  - exact Hget.
  - rewrite get_omex_file_snoc, Hget. simpl. by rewrite PyFacts.eqb_refl.
Qed.

(** Submitting bytes whose hash the catalog holds changes nothing. *)
Lemma submit_again (now1 now2 : string) (up1 up2 : UploadFile) (s : store) :
  upload_bytes up1 = upload_bytes up2 ->
  submit now2 up2 (submit now1 up1 s).2 = ((submit now1 up1 s).1,
                                           (submit now1 up1 s).2).
Proof.
  intros Hbytes. pose proof (submit_then_found now1 up1 s) as Hfound.
  destruct (submit now1 up1 s) as [r1 s1]. simpl in *.
  unfold get_cached_omex_file_from_upload. by rewrite <- Hbytes, Hfound.
Qed.

End Submit.

(** C5. Submitting the same bytes twice, under whatever file names and at
    whatever times, returns the same record both times, hence equal
    content hashes, and the second submission leaves the store as the
    first left it: no storage write, no catalog row.  In every store built
    by submissions the catalog has one row per content hash, the storage
    holds exactly the objects of those rows, and there were as many
    storage writes as there are rows. *)
Theorem archive_submission_idempotent
    (hash_bytes_md5 : list Byte.byte -> string)
    (earlier : list (string * UploadFile))
    (bytes : list Byte.byte) (filename1 filename2 now1 now2 : string) :
  let s := submit_all hash_bytes_md5 earlier empty in
  let first :=
    get_cached_omex_file_from_upload hash_bytes_md5 now1
      {| upload_filename := filename1; upload_bytes := bytes |} s in
  let second :=
    get_cached_omex_file_from_upload hash_bytes_md5 now2
      {| upload_filename := filename2; upload_bytes := bytes |} first.2 in
  content_hash second.1 = content_hash first.1
  /\ content_hash first.1 = hash_bytes_md5 bytes
  /\ second.1 = first.1
  /\ second.2 = first.2
  /\ NoDup (map content_hash (catalog second.2))
  /\ writes second.2 = length (catalog second.2)
  /\ (forall path : string,
        is_Some (objects second.2 !! path)
        <-> exists row, row ∈ catalog second.2
                        /\ path = storage_path (content_hash row)).
Proof.
  intros s first second.
  assert (Hagain : second = (first.1, first.2)).
  { subst second first. by apply submit_again. }
  assert (Hcons : consistent first.2).
  { subst first. apply submit_consistent, submit_all_consistent,
      consistent_empty. }
  rewrite Hagain. simpl. destruct Hcons as [H1 H2 H3 _].
  repeat split; try done; try apply H3.
  subst first. unfold get_cached_omex_file_from_upload. simpl.
  destruct (get_omex_file _ (catalog s)) as [existing|] eqn:Hget; simpl.
  - by destruct (get_omex_file_Some _ _ _ Hget).
  - done.
Qed.

Example two_uploads_one_object :
  let s := submit_all sample_hash
             [("t0", sample_upload);
              ("t1", {| upload_filename := "copy.omex";
                        upload_bytes := upload_bytes
                                          sample_upload |})]
             empty in
  length (catalog s) = 1 /\ writes s = 1 /\ size (objects s) = 1.
Proof. vm_compute. done. Qed.

End OmexFacts.

(* ===================================================================== *)
(** * The run-record cache: reuse and cache-buster isolation              *)
(* ===================================================================== *)

Module RunCacheFacts.

Import Models RunCache Samples.

Lemma lookup_snoc (key : CacheKey) (records : list BiosimulatorWorkflowRun)
    (run : BiosimulatorWorkflowRun) :
  lookup key (records ++ [run])
  = match lookup key records with
    | Some found => Some found
    | None =>
        if bool_decide (key_of run = key) && succeeded run then Some run
        else None
    end.
Proof.
  induction records as [|r records IH]; simpl; [done|].
  by destruct (bool_decide (key_of r = key) && succeeded r).
Qed.

Lemma lookup_Some (key : CacheKey) (records : list BiosimulatorWorkflowRun)
    (run : BiosimulatorWorkflowRun) :
  lookup key records = Some run ->
  run ∈ records /\ key_of run = key /\ succeeded run = true.
Proof.
  induction records as [|r records IH]; simpl; [done|].
  destruct (bool_decide (key_of r = key) && succeeded r) eqn:E.
  - intros [= <-]. apply andb_true_iff in E as [E1 E2].
    apply bool_decide_eq_true in E1.
    split; [apply elem_of_cons; by left|done].
  - intros H. destruct (IH H) as (? & ? & ?).
    split; [apply elem_of_cons; by right|done].
Qed.

(** The record a request ends with carries the request's key. *)
Lemma run_simulator_key (req : SimRequest) (remote : BiosimSimulationRun)
    (st : state) :
  key_of (run_simulator req remote st).1 = request_key req.
Proof.
  unfold run_simulator.
  destruct (lookup _ (records st)) as [cached|] eqn:Hl; simpl.
  - by destruct (lookup_Some _ _ _ Hl) as (_ & ? & _).
  - done.
Qed.

(** A request with the key of a succeeded one finds that one's record. *)
Lemma run_simulator_then_lookup (req : SimRequest)
    (remote : BiosimSimulationRun) (st : state) :
  succeeded (run_simulator req remote st).1 = true ->
  lookup (request_key req) (records (run_simulator req remote st).2)
  = Some (run_simulator req remote st).1.
Proof.
  unfold run_simulator.
  destruct (lookup _ (records st)) as [cached|] eqn:Hl; simpl.
  - intros _. exact Hl.
  - intros Hs. rewrite lookup_snoc, Hl.
    unfold key_of, request_key at 1. simpl.
    rewrite bool_decide_eq_true_2 by done. simpl.
    unfold succeeded in *. simpl in *. by rewrite Hs.
Qed.

(** A request leaves the records under every other key as they were. *)
Lemma run_simulator_other_key (req : SimRequest)
    (remote : BiosimSimulationRun) (st : state) (key : CacheKey) :
  key <> request_key req ->
  lookup key (records (run_simulator req remote st).2)
  = lookup key (records st).
Proof.
  intros Hne. unfold run_simulator.
  destruct (lookup (request_key req) (records st)) as [cached|]; simpl.
  - done.
  - rewrite lookup_snoc. destruct (lookup key (records st)); [done|].
    rewrite bool_decide_eq_false_2; [done|].
    unfold key_of. simpl. intros Heq. apply Hne. by rewrite <- Heq.
Qed.

(** C2, amended.  Two requests with the same archive content hash and
    simulator image digest.  With the same cache_buster they have the same
    cache key, and when the first ended with a SUCCEEDED record the second
    is handed that very record, with no remote submission and no new
    record.  With different cache_busters the keys differ and the first
    request's record is never reused by the second; the second is
    submitted to the remote unless a SUCCEEDED record was already kept
    under its own key. *)
Theorem cache_key_reuse_and_cache_buster_isolation
    (req1 req2 : SimRequest) (remote1 remote2 : BiosimSimulationRun)
    (st : state) :
  Omex.content_hash (req_omex_file req1)
  = Omex.content_hash (req_omex_file req2) ->
  image_digest (req_simulator_version req1)
  = image_digest (req_simulator_version req2) ->
  let first := run_simulator req1 remote1 st in
  let second := run_simulator req2 remote2 first.2 in
  (req_cache_buster req1 = req_cache_buster req2 ->
   request_key req1 = request_key req2
   /\ (succeeded first.1 = true ->
       second.1 = first.1
       /\ submissions second.2 = submissions first.2
       /\ records second.2 = records first.2))
  /\ (req_cache_buster req1 <> req_cache_buster req2 ->
      request_key req1 <> request_key req2
      /\ lookup (request_key req2) (records first.2)
         = lookup (request_key req2) (records st)
      /\ (lookup (request_key req2) (records st) = None ->
          submissions second.2 = S (submissions first.2)
          /\ biosim_run second.1 = Some remote2
          /\ Models.workflow_id second.1 = req_workflow_id req2
          /\ records second.2 = records first.2 ++ [second.1])).
Proof.
  intros Hhash Hdigest first second. split.
  - intros Hcb.
    assert (Hkey : request_key req1 = request_key req2).
    { unfold request_key. by rewrite Hhash, Hdigest, Hcb. }
    split; [exact Hkey|]. intros Hs.
    pose proof (run_simulator_then_lookup req1 remote1 st Hs) as Hfound.
    subst second. fold first in Hfound. unfold run_simulator at 1 2 3.
    rewrite <- Hkey, Hfound. done.
  - intros Hcb.
    assert (Hkey : request_key req1 <> request_key req2).
    { unfold request_key, key_for. intros [= _ _ H]. done. }
    assert (Hsame : lookup (request_key req2) (records first.2)
                    = lookup (request_key req2) (records st)).
    { subst first. apply run_simulator_other_key. congruence. }
    split; [exact Hkey|]. split; [exact Hsame|].
    intros Hnone. subst second. unfold run_simulator at 1 2 3 4 5.
    rewrite Hsame, Hnone. done.
Qed.

Example same_buster_one_submission :
  let first := run_simulator (request "wf-1" "0")
                 (remote_run "67817a2e1f52f47f628af971" SUCCEEDED) fresh in
  let second := run_simulator (request "wf-2" "0")
                  (remote_run "67817a2eba5a3f02b9f2938d" SUCCEEDED) first.2 in
  second.1 = first.1 /\ submissions second.2 = 1.
Proof. vm_compute. done. Qed.

Example failed_run_not_reused :
  let first := run_simulator (request "wf-1" "0")
                 (remote_run "67817a2e1f52f47f628af971" FAILED) fresh in
  let second := run_simulator (request "wf-2" "0")
                  (remote_run "67817a2eba5a3f02b9f2938d" SUCCEEDED) first.2 in
  submissions second.2 = 2.
Proof. vm_compute. done. Qed.

(** C2, as stated, fails: a record kept under cache_buster "1" by an
    earlier request is reused when, of two otherwise identical requests,
    the second changes the cache_buster from "0" to "1"; the change
    triggers no remote submission. *)
Lemma changed_cache_buster_can_hit_older_record :
  let earlier := run_simulator (request "wf-0" "1")
                   (remote_run "677f1c0a9d8e7b6a5c4d3e2f" SUCCEEDED) fresh in
  let first := run_simulator (request "wf-1" "0")
                 (remote_run "67817a2e1f52f47f628af971" SUCCEEDED)
                 earlier.2 in
  let second := run_simulator (request "wf-2" "1")
                  (remote_run "67817a2eba5a3f02b9f2938d" SUCCEEDED)
                  first.2 in
  req_cache_buster (request "wf-1" "0") <> req_cache_buster (request "wf-2" "1")
  /\ submissions second.2 = submissions first.2
  /\ second.1 = earlier.1
  /\ biosim_run second.1
     <> Some (remote_run "67817a2eba5a3f02b9f2938d" SUCCEEDED).
Proof. vm_compute. repeat split; discriminate. Qed.

Lemma cache_key_reuse_and_cache_buster_isolation_witness :
  let first := run_simulator (request "wf-1" "0")
                 (remote_run "67817a2e1f52f47f628af971" SUCCEEDED) fresh in
  let second := run_simulator (request "wf-2" "1")
                  (remote_run "67817a2eba5a3f02b9f2938d" SUCCEEDED) first.2 in
  submissions second.2 = S (submissions first.2)
  /\ biosim_run second.1
     = Some (remote_run "67817a2eba5a3f02b9f2938d" SUCCEEDED)
  /\ Models.workflow_id second.1 = "wf-2"
  /\ records second.2 = records first.2 ++ [second.1].
Proof.
  intros first second.
  refine (proj2 (proj2 (proj2 (cache_key_reuse_and_cache_buster_isolation
            (request "wf-1" "0") (request "wf-2" "1")
            (remote_run "67817a2e1f52f47f628af971" SUCCEEDED)
            (remote_run "67817a2eba5a3f02b9f2938d" SUCCEEDED)
            fresh eq_refl eq_refl) _)) _).
  - discriminate.
  - reflexivity.
Defined.

End RunCacheFacts.

(* ===================================================================== *)
(** * biosim_runs/models.py: the properties of the HDF5 models            *)
(* ===================================================================== *)

Module Hdf5Facts.

Import Models Hdf5 SpecMore Hdf5Samples.

Lemma add_datasets_lookup (dataset_dict : gmap string HDF5Dataset)
    (group_datasets : list HDF5Dataset) (n : string) :
  add_datasets dataset_dict group_datasets !! n
  = match last (filter (fun d => dataset_name d = n) group_datasets) with
    | Some d => Some d
    | None => dataset_dict !! n
    end.
Proof.
  revert dataset_dict.
  induction group_datasets as [|d rest IH]; intros dataset_dict; simpl; [done|].
  rewrite IH, filter_cons.
  destruct (decide (dataset_name d = n)) as [Heq|Hne].
  - rewrite last_cons. destruct (last (filter _ rest)); [done|].
    by rewrite <- Heq, lookup_insert_eq.
  - destruct (last (filter _ rest)); [done|]. by rewrite lookup_insert_ne.
Qed.

Lemma add_groups_lookup (dataset_dict : gmap string HDF5Dataset)
    (file_groups : list HDF5Group) (n : string) :
  add_groups dataset_dict file_groups !! n
  = match last (filter (fun d => dataset_name d = n)
                  (concat (map datasets file_groups))) with
    | Some d => Some d
    | None => dataset_dict !! n
    end.
Proof.
  revert dataset_dict.
  induction file_groups as [|g rest IH]; intros dataset_dict; simpl; [done|].
  rewrite IH, filter_app, last_app, add_datasets_lookup.
  by destruct (last (filter _ (concat _))).
Qed.

Lemma file_datasets_lookup (file : HDF5File) (n : string) :
  file_datasets file !! n
  = last (filter (fun d => dataset_name d = n) (all_datasets file)).
Proof.
  unfold file_datasets, all_datasets. rewrite add_groups_lookup.
  rewrite lookup_empty. by destruct (last _).
Qed.

(** X1. [HDF5File.datasets] maps a name to the last dataset of that name,
    in the order of the groups and of the datasets within them; a dataset
    of an earlier group with the same name is lost.  What is stored under
    a name is a dataset of the file carrying that name. *)
Theorem file_datasets_last_of_name (file : HDF5File) (n : string) :
  file_datasets file !! n
  = last (filter (fun d => dataset_name d = n) (all_datasets file))
  /\ (forall d, file_datasets file !! n = Some d ->
        dataset_name d = n /\ d ∈ all_datasets file).
Proof.
  pose proof (file_datasets_lookup file n) as H.
  split; [exact H|]. intros d Hd. rewrite H in Hd.
  apply last_Some_elem_of in Hd. apply list_elem_of_filter in Hd.
  by destruct Hd.
Qed.

Lemma size_list_to_set_le (names : list string) :
  size (list_to_set (C := gset string) names) <= length names.
Proof.
  induction names as [|x names IH].
  - change (list_to_set (C := gset string) []) with (∅ : gset string).
    by rewrite size_empty.
  - rewrite list_to_set_cons, size_union_alt, size_singleton. simpl.
    assert (size (list_to_set (C := gset string) names ∖ {[x]})
            <= size (list_to_set (C := gset string) names)).
    { apply subseteq_size, subseteq_difference_l. done. }
    lia.
Qed.

(** X2. The keys of [HDF5File.datasets] are exactly the names of the
    file's datasets.  The dict never has more entries than the file has
    datasets, and has as many when no two datasets share a name: only
    then is no dataset lost. *)
Theorem file_datasets_keys_and_size (file : HDF5File) :
  dom (file_datasets file)
  = list_to_set (map dataset_name (all_datasets file))
  /\ size (file_datasets file) <= length (all_datasets file)
  /\ (NoDup (map dataset_name (all_datasets file)) ->
      size (file_datasets file) = length (all_datasets file)).
Proof.
  assert (Hdom : dom (file_datasets file)
                 = list_to_set (map dataset_name (all_datasets file))).
  { apply set_eq. intros n.
    rewrite elem_of_dom, elem_of_list_to_set.
    rewrite (file_datasets_lookup file n).
    rewrite last_is_Some. split.
    - intros Hne. destruct (filter _ (all_datasets file)) as [|d l] eqn:E;
        [done|].
      assert (Hd : d ∈ filter (fun d => dataset_name d = n)
                         (all_datasets file)).
      { rewrite E. apply elem_of_cons. by left. }
      apply list_elem_of_filter in Hd as [Hn Hin].
      apply list_elem_of_fmap. by exists d.
    - intros Hin Hnil. apply list_elem_of_fmap in Hin as (d & -> & Hin).
      assert (Hd : d ∈ filter (fun d' => dataset_name d' = dataset_name d)
                         (all_datasets file)).
      { by apply list_elem_of_filter. }
      rewrite Hnil in Hd. by apply elem_of_nil in Hd. }
  split; [exact Hdom|].
  rewrite <- (size_dom (D := gset string)), Hdom. split.
  - rewrite <- (length_map dataset_name). apply size_list_to_set_le.
  - intros Hnodup. rewrite size_list_to_set by done. apply length_map.
Qed.

Lemma sedml_labels_of_skip (attr : HDF5Attribute)
    (rest : list HDF5Attribute) :
  ~ qualifies attr -> sedml_labels_of (attr :: rest) = sedml_labels_of rest.
Proof.
  unfold qualifies. intros Hq. simpl.
  destruct (Py.eqb (key attr) "sedmlDataSetLabels") eqn:E; [|done].
  apply PyFacts.eqb_true in E.
  destruct (as_str_list (value attr)) eqn:Ev; [|done].
  exfalso. apply Hq. split; [done|]. by eexists.
Qed.

(** X3. [sedml_labels] gives the labels of the first attribute that has
    the key ["sedmlDataSetLabels"] and a list of strings for its value;
    attributes with another key, or with that key and a value of another
    type, are passed over.  With no such attribute the labels are empty,
    nothing is raised. *)
Theorem sedml_labels_first_string_list (dataset : HDF5Dataset) :
  (forall before attr after labels,
     dataset_attributes dataset = before ++ attr :: after ->
     Forall (fun a => ~ qualifies a) before ->
     key attr = "sedmlDataSetLabels" ->
     as_str_list (value attr) = Some labels ->
     sedml_labels dataset = labels)
  /\ (Forall (fun a => ~ qualifies a) (dataset_attributes dataset) ->
      sedml_labels dataset = []).
Proof.
  unfold sedml_labels. split.
  - intros before attr after labels -> Hbefore Hkey Hval.
    induction Hbefore as [|a before Ha Hbefore IH]; simpl.
    + rewrite Hkey, PyFacts.eqb_refl. by rewrite Hval.
    + rewrite <- IH. by apply sedml_labels_of_skip.
  - intros Hall. induction Hall as [|a l Ha Hall IH]; [done|].
    rewrite <- IH. by apply sedml_labels_of_skip.
Qed.

Lemma sedml_labels_first_string_list_witness :
  sedml_labels report_1 = ["time"; "S1"; "S2"].
Proof.
  apply (proj1 (sedml_labels_first_string_list report_1)
           [time_attr; bad_labels_attr] labels_attr [] ["time"; "S1"; "S2"]).
  - reflexivity.
  - repeat constructor; unfold qualifies; simpl; intros [H1 H2].
    + discriminate H1.
    + destruct H2 as [x Hx]. discriminate Hx.
  - reflexivity.
  - reflexivity.
Defined.

Lemma file_datasets_keys_and_size_witness :
  size (file_datasets
          {| filename := "one.h5"; hdf5_id := "1"; uri := "u";
             groups := [ {| group_name := "a"; group_attributes := [];
                            datasets := [report_1] |} ] |}) = 1.
Proof.
  apply (proj2 (proj2 (file_datasets_keys_and_size
           {| filename := "one.h5"; hdf5_id := "1"; uri := "u";
              groups := [ {| group_name := "a"; group_attributes := [];
                             datasets := [report_1] |} ] |}))).
  simpl. apply NoDup_singleton.
Defined.

Example two_groups_keep_the_later_dataset :
  shape <$> (file_datasets two_groups !! "simulation_1.sedml/report_1")
  = Some [2%Z; 5%Z]
  /\ size (file_datasets two_groups) = 1.
Proof. vm_compute. done. Qed.

Lemma status_of_string_value (s : BiosimSimulationRunStatus) :
  Biosim1Client.status_of_string (status_value s) = Return s.
Proof. by destruct s. Qed.

Lemma status_of_string_Return (text : string) (s : BiosimSimulationRunStatus) :
  Biosim1Client.status_of_string text = Return s -> text = status_value s.
Proof.
  unfold Biosim1Client.status_of_string.
  repeat (match goal with
          | |- context [Py.eqb text ?v] =>
              destruct (Py.eqb text v) eqn:?E
          end;
          [ match goal with
            | H : Py.eqb text _ = true |- _ =>
                apply PyFacts.eqb_true in H; subst text
            end; by intros [= <-] |]).
  done.
Qed.

(** X6. The members of [BiosimSimulationRunStatus] and their values
    correspond one to one: parsing the value of a member gives the member
    back, a string parses to a member only if it is that member's value,
    and any other string is refused with a [ValueError]. *)
Theorem status_value_round_trip (text : string) (s : BiosimSimulationRunStatus) :
  Biosim1Client.status_of_string (status_value s) = Return s
  /\ (Biosim1Client.status_of_string text = Return s -> text = status_value s)
  /\ ((forall s', text <> status_value s') ->
      Biosim1Client.status_of_string text
      = Raise (ValueError
                 ("'" +:+ text +:+ "' is not a valid BiosimSimulationRunStatus"))).
Proof.
  split; [apply status_of_string_value|].
  split; [apply status_of_string_Return|].
  - intros Hno. unfold Biosim1Client.status_of_string.
    repeat match goal with
           | |- context [Py.eqb text ?v] =>
               replace (Py.eqb text v) with false;
               [| symmetry; apply PyFacts.eqb_false;
                  first [ exact (Hno CREATED) | exact (Hno QUEUED)
                        | exact (Hno RUNNING) | exact (Hno SKIPPED)
                        | exact (Hno PROCESSING) | exact (Hno SUCCEEDED)
                        | exact (Hno FAILED) | exact (Hno RUN_ID_NOT_FOUND)
                        | exact (Hno UNKNOWN) ] ]
           end.
    done.
Qed.

Lemma status_value_round_trip_witness :
  Biosim1Client.status_of_string "succeeded"
  = Raise (ValueError "'succeeded' is not a valid BiosimSimulationRunStatus").
Proof.
  apply (proj2 (proj2 (status_value_round_trip "succeeded" SUCCEEDED))).
  intros s'. destruct s'; discriminate.
Defined.

End Hdf5Facts.

(* ===================================================================== *)
(** * biosim_service_rest.py: catalog, run status, submission, sender     *)
(* ===================================================================== *)

Module RestFacts.

Import Biosim1Client BiosimServiceRest SpecMore RestVocabulary.

Lemma simulation_versions_of_omap (entries : list SimulatorJson) :
  simulation_versions_of entries = omap version_of_entry entries.
Proof.
  induction entries as [|sim rest IH]; simpl; [done|].
  unfold version_of_entry at 1. rewrite IH.
  destruct (sim_image sim) as [img|]; [|done].
  destruct (img !! "url") as [u|] eqn:Hu.
  - assert (Hne : img <> ∅).
    { intros ->. by rewrite lookup_empty in Hu. }
    rewrite (bool_decide_eq_true_2 _ Hne).
    by destruct (img !! "digest").
  - by destruct (bool_decide (img <> ∅)), (img !! "digest").
Qed.

Lemma length_omap_le {A B} (f : A -> option B) (l : list A) :
  length (omap f l) <= length l.
Proof.
  induction l as [|x l IH]; [done|].
  change (omap f (x :: l))
    with (match f x with Some y => y :: omap f l | None => omap f l end).
  destruct (f x); simpl; lia.
Qed.

(** X4. [get_simulation_versions] keeps exactly the catalog entries whose
    image has a url and a digest, with the entry's id, name and version
    and in the order of the reply; every other entry is dropped without
    an error. *)
Theorem simulation_versions_keep_imaged_entries
    (entries more : list SimulatorJson) (sv : BiosimulatorVersion) :
  simulation_versions_of (entries ++ more)
  = simulation_versions_of entries ++ simulation_versions_of more
  /\ length (simulation_versions_of entries) <= length entries
  /\ (sv ∈ simulation_versions_of entries
      <-> exists sim img,
            sim ∈ entries
            /\ sim_image sim = Some img
            /\ img !! "url" = Some (url (image sv))
            /\ img !! "digest" = Some (digest (image sv))
            /\ sv_id sv = sim_id sim
            /\ sv_name sv = sim_name sim
            /\ sv_version sv = sim_version sim).
Proof.
  rewrite !simulation_versions_of_omap. split; [apply omap_app|].
  split; [apply length_omap_le|].
  rewrite list_elem_of_omap. split.
  - intros (sim & Hin & Hsv). unfold version_of_entry in Hsv.
    destruct (sim_image sim) as [img|] eqn:Himg; [|done].
    destruct (img !! "url") as [u|] eqn:Hu; [|done].
    destruct (img !! "digest") as [d|] eqn:Hd; [|done].
    injection Hsv as <-. exists sim, img. by repeat split.
  - intros (sim & img & Hin & Himg & Hu & Hd & Hid & Hname & Hver).
    exists sim. split; [done|]. unfold version_of_entry.
    rewrite Himg, Hu, Hd. destruct sv as [i n v [u d]]. simpl in *.
    by subst.
Qed.

Lemma catalog_calls_from_past
    (calls past : list (Z * reply (list SimulatorJson)))
    (cache : SimpleMemoryCache (list BiosimulatorVersion)) :
  cache_from_past past cache ->
  forall i now api o,
    calls !! i = Some (now, api) ->
    (catalog_calls calls cache).1 !! i = Some o ->
    o = fetch_simulation_versions api
    \/ exists j fetched_at api' catalog,
         j < length past + i
         /\ (past ++ calls) !! j = Some (fetched_at, api')
         /\ fetch_simulation_versions api' = Return catalog
         /\ o = Return catalog
         /\ (now < fetched_at + 3600)%Z.
Proof.
  revert past cache.
  induction calls as [|[now0 api0] rest IH]; intros past cache Hinv i now api o;
    [by rewrite lookup_nil|].
  destruct i as [|i]; simpl.
  - intros [= -> ->] [= <-].
    unfold get_simulation_versions, cached.
    destruct (cache_get now cache) as [v|] eqn:Hget.
    + right. destruct Hinv as [->|(j & t & a & c & Hj & Hf & ->)]; [done|].
      simpl in Hget. destruct (Z.ltb_spec now (t + 3600)) as [Hlt|]; [|done].
      injection Hget as <-. exists j, t, a, c.
      split; [apply lookup_lt_Some in Hj; lia|].
      split; [by rewrite lookup_app_l by (by eapply lookup_lt_Some)|].
      done.
    + left. by destruct (fetch_simulation_versions api).
  - intros Hcall Ho.
    assert (Hinv' : cache_from_past (past ++ [(now0, api0)])
                      (get_simulation_versions api0 now0 cache).2).
    { unfold get_simulation_versions, cached.
      destruct (cache_get now0 cache) as [v|] eqn:Hget; simpl.
      - destruct Hinv as [->|(j & t & a & c & Hj & Hf & ->)]; [by left|].
        right. exists j, t, a, c. split; [|done].
        by rewrite lookup_app_l by (by eapply lookup_lt_Some).
      - destruct (fetch_simulation_versions api0) as [result|e] eqn:Hf;
          simpl; [|by left].
        right. exists (length past), now0, api0, result.
        split; [|done]. by rewrite list_lookup_middle. }
    destruct (IH _ _ Hinv' i now api o Hcall Ho)
      as [Hown|(j & t & a & c & Hj & Hlook & Hf & -> & Hlt)]; [by left|].
    right. exists j, t, a, c. rewrite length_app in Hj. simpl in Hj.
    split; [lia|]. split; [|done].
    by rewrite <- app_assoc in Hlook.
Qed.

(** X5. Over any sequence of calls of [get_simulation_versions] on an
    empty cache, each call gives either what its own fetch gave (a
    catalog or the error raised) or a catalog that an earlier call of the
    sequence fetched less than 3600 seconds before, by the call's own
    clock.  So an error is never served from the cache, and no catalog is
    served an hour or more after it was fetched. *)
Theorem served_catalog_fetched_within_the_hour
    (calls : list (Z * reply (list SimulatorJson)))
    (i : nat) (now : Z) (api : reply (list SimulatorJson))
    (o : outcome (list BiosimulatorVersion)) :
  calls !! i = Some (now, api) ->
  (catalog_calls calls None).1 !! i = Some o ->
  o = fetch_simulation_versions api
  \/ exists j fetched_at api' catalog,
       j < i
       /\ calls !! j = Some (fetched_at, api')
       /\ fetch_simulation_versions api' = Return catalog
       /\ o = Return catalog
       /\ (now < fetched_at + 3600)%Z.
Proof.
  intros Hcall Ho.
  exact (catalog_calls_from_past calls [] None (or_introl eq_refl)
           i now api o Hcall Ho).
Qed.

Lemma served_catalog_fetched_within_the_hour_witness :
  Return Samples.sample_catalog
  = fetch_simulation_versions (Response 503 "Service Unavailable" [])
  \/ exists j fetched_at api' catalog,
       j < 1
       /\ [(0%Z, Response 200 "OK" Samples.sample_catalog_json);
           (1800%Z, Response 503 "Service Unavailable" [])] !! j
          = Some (fetched_at, api')
       /\ fetch_simulation_versions api' = Return catalog
       /\ Return Samples.sample_catalog = Return catalog
       /\ (1800 < fetched_at + 3600)%Z.
Proof.
  apply (served_catalog_fetched_within_the_hour
           [(0%Z, Response 200 "OK" Samples.sample_catalog_json);
            (1800%Z, Response 503 "Service Unavailable" [])]
           1 1800 (Response 503 "Service Unavailable" [])
           (Return Samples.sample_catalog)).
  - reflexivity.
  - vm_compute. reflexivity.
Defined.

(** X7. [BiosimServiceRest.get_sim_run] returns a run exactly when the
    reply has a status below 400 and a body with the six members, the
    status member being the value of a run status; the run then carries
    the members of the body, its id included, which is not compared with
    the id that was asked for. *)
Theorem rest_get_sim_run_returns_the_body
    (api : RunsApi) (simulation_run_id : string) (r : BiosimSimulationRun) :
  get_sim_run api simulation_run_id = Return r
  <-> exists http_status reason res digest,
        api ("/runs/" +:+ simulation_run_id) = Response http_status reason res
        /\ (http_status < 400)%Z
        /\ res !! "id" = Some (id r)
        /\ res !! "name" = Some (name r)
        /\ res !! "simulator" = Some (simulator r)
        /\ res !! "simulatorVersion" = Some (simulatorVersion r)
        /\ res !! "simulatorDigest" = Some digest
        /\ simulatorDigest r = Some digest
        /\ res !! "status" = Some (Hdf5.status_value (status r)).
Proof.
  unfold get_sim_run. split.
  - destruct (api _) as [m|st reason res]; [done|].
    unfold raise_for_status. destruct (Z.leb_spec 400 st) as [|Hlt]; [done|].
    simpl. unfold getitem.
    destruct (res !! "id") as [v1|] eqn:H1; simpl; [|done].
    destruct (res !! "name") as [v2|] eqn:H2; simpl; [|done].
    destruct (res !! "simulator") as [v3|] eqn:H3; simpl; [|done].
    destruct (res !! "simulatorVersion") as [v4|] eqn:H4; simpl; [|done].
    destruct (res !! "simulatorDigest") as [v5|] eqn:H5; simpl; [|done].
    destruct (res !! "status") as [v6|] eqn:H6; simpl; [|done].
    destruct (status_of_string v6) as [s|e] eqn:Hs; simpl; [|done].
    intros [= <-]. simpl. exists st, reason, res, v5.
    repeat split; try done.
    rewrite H6. f_equal.
    exact (Hdf5Facts.status_of_string_Return v6 s Hs).
  - intros (st & reason & res & d & -> & Hlt & H1 & H2 & H3 & H4 & H5 & Hd & H6).
    unfold raise_for_status. destruct (Z.leb_spec 400 st); [lia|].
    simpl. unfold getitem. rewrite H1, H2, H3, H4, H5, H6. simpl.
    rewrite (Hdf5Facts.status_of_string_value (status r)). simpl.
    destruct r. simpl in *. by subst.
Qed.

End RestFacts.

(* ===================================================================== *)
(** * [run_biosim_sim], [file_sender] and the [get_sim_run] activity      *)
(* ===================================================================== *)

Module SubmitFacts.

Import Biosim1Client RestMore SubmitSamples.

Lemma or_latest_nonempty (v : option string) : or_latest v <> "".
Proof.
  destruct v as [v|]; simpl; [|done].
  destruct (Py.eqb v "") eqn:E; [done|]. by apply PyFacts.eqb_false in E.
Qed.

Lemma or_latest_given (v : string) : v <> "" -> or_latest (Some v) = v.
Proof.
  intros Hv. simpl. by rewrite (proj2 (PyFacts.eqb_false v "") Hv).
Qed.

(** X9. [run_biosim_sim] depends on the remote only through its answer to
    one request: the archive bytes together with the name, the simulator,
    a time limit of 600 and the version of the spec, or ["latest"] when
    the spec has no version or an empty one.  The version sent is never
    the empty string. *)
Theorem run_biosim_sim_sends_version_or_latest
    (open_rb : string -> outcome (list Byte.byte)) (api api' : SubmitApi)
    (local_omex_path omex_name : string) (simulator_spec : BiosimSimulatorSpec) :
  (forall f, open_rb local_omex_path = Return f ->
             api f (request_of omex_name simulator_spec)
             = api' f (request_of omex_name simulator_spec)) ->
  run_biosim_sim open_rb api local_omex_path omex_name simulator_spec
  = run_biosim_sim open_rb api' local_omex_path omex_name simulator_spec
  /\ Models.simulatorVersion (request_of omex_name simulator_spec) <> ""
  /\ Models.maxTime (request_of omex_name simulator_spec) = 600%Z
  /\ (forall v, version simulator_spec = Some v -> v <> "" ->
        Models.simulatorVersion (request_of omex_name simulator_spec) = v)
  /\ (version simulator_spec = None \/ version simulator_spec = Some "" ->
      Models.simulatorVersion (request_of omex_name simulator_spec)
      = "latest").
Proof.
  intros Hsame. split; [|split; [apply or_latest_nonempty|]].
  - unfold run_biosim_sim. fold (request_of omex_name simulator_spec).
    destruct (open_rb local_omex_path) as [f|e]; [|done].
    by rewrite (Hsame f eq_refl).
  - split; [done|]. split.
    + intros v Hv Hne. simpl. rewrite Hv. by apply or_latest_given.
    + intros [Hv|Hv]; simpl; by rewrite Hv.
Qed.

(** X10. After [run_biosim_sim] has returned a run, the spec it was given
    has a version: the one it had, or, when it had none, the version the
    remote resolved, which is the [simulatorVersion] of the returned run;
    its simulator is unchanged.  An empty version, sent as ["latest"],
    stays empty. *)
Theorem run_biosim_sim_pins_the_version
    (open_rb : string -> outcome (list Byte.byte)) (api : SubmitApi)
    (local_omex_path omex_name : string)
    (simulator_spec simulator_spec' : BiosimSimulatorSpec)
    (r : BiosimSimulationRun) :
  run_biosim_sim open_rb api local_omex_path omex_name simulator_spec
  = (Return r, simulator_spec') ->
  simulator simulator_spec' = simulator simulator_spec
  /\ version simulator_spec'
     = Some (match version simulator_spec with
             | Some v => v
             | None => simulatorVersion r
             end).
Proof.
  unfold run_biosim_sim.
  destruct (open_rb local_omex_path) as [f|e]; [|done].
  destruct (api f _) as [m|st reason res]; [done|].
  destruct (raise_for_status st reason); [|done].
  unfold getitem.
  destruct simulator_spec as [sim [v|]]; simpl.
  - destruct (res !! "id"); simpl; [|done].
    destruct (res !! "name"); simpl; [|done].
    destruct (res !! "simulator"); simpl; [|done].
    destruct (res !! "simulatorVersion"); simpl; [|done].
    destruct (res !! "simulatorDigest"); simpl; [|done].
    destruct (res !! "status") as [t|]; simpl; [|done].
    destruct (status_of_string t); simpl; [|done].
    by intros [= <- <-].
  - destruct (res !! "simulatorVersion") as [v|] eqn:Hv; simpl; [|done].
    destruct (res !! "id"); simpl; [|done].
    destruct (res !! "name"); simpl; [|done].
    destruct (res !! "simulator"); simpl; [|done].
    destruct (res !! "simulatorDigest"); simpl; [|done].
    destruct (res !! "status") as [t|]; simpl; [|done].
    destruct (status_of_string t); simpl; [|done].
    by intros [= <- <-].
Qed.

(** X11. [run_biosim_sim] changes the spec in one case, and in that case
    it does change it: when the spec has no version and the remote answers
    the submission with a status below 400 and a body with a
    [simulatorVersion], the spec leaves the call with that version, also
    when the rest of the body cannot be read and the call raises (a body
    without [id] raises [KeyError] after the spec was changed).  In every
    other case the spec is as it was: it had a version already, the
    archive cannot be opened, the remote cannot be reached, or its status
    is 400 or more, which raises [ClientResponseError], or the body has
    no [simulatorVersion], which raises [KeyError]. *)
Theorem run_biosim_sim_changes_the_spec_once
    (open_rb : string -> outcome (list Byte.byte)) (api : SubmitApi)
    (local_omex_path omex_name : string) (simulator_spec : BiosimSimulatorSpec) :
  let result :=
    run_biosim_sim open_rb api local_omex_path omex_name simulator_spec in
  (forall f http_status reason res v,
     version simulator_spec = None ->
     open_rb local_omex_path = Return f ->
     api f (request_of omex_name simulator_spec)
     = Response http_status reason res ->
     (http_status < 400)%Z ->
     res !! "simulatorVersion" = Some v ->
     result.2 = {| simulator := simulator simulator_spec; version := Some v |}
     /\ (res !! "id" = None -> result.1 = Raise (KeyError "id")))
  /\ (result.2 = simulator_spec
      \/ exists f http_status reason res v,
           version simulator_spec = None
           /\ open_rb local_omex_path = Return f
           /\ api f (request_of omex_name simulator_spec)
              = Response http_status reason res
           /\ (http_status < 400)%Z
           /\ res !! "simulatorVersion" = Some v
           /\ result.2 = {| simulator := simulator simulator_spec;
                            version := Some v |})
  /\ (forall v, version simulator_spec = Some v -> result.2 = simulator_spec)
  /\ (forall e, open_rb local_omex_path = Raise e ->
        result = (Raise e, simulator_spec))
  /\ (forall f message,
        open_rb local_omex_path = Return f ->
        api f (request_of omex_name simulator_spec) = Unreachable message ->
        result = (Raise (ClientConnectionError message), simulator_spec))
  /\ (forall f http_status reason res,
        open_rb local_omex_path = Return f ->
        api f (request_of omex_name simulator_spec)
        = Response http_status reason res ->
        (400 <= http_status)%Z ->
        result = (Raise (ClientResponseError http_status reason),
                  simulator_spec))
  /\ (forall f http_status reason res,
        version simulator_spec = None ->
        open_rb local_omex_path = Return f ->
        api f (request_of omex_name simulator_spec)
        = Response http_status reason res ->
        (http_status < 400)%Z ->
        res !! "simulatorVersion" = None ->
        result = (Raise (KeyError "simulatorVersion"), simulator_spec)).
Proof.
  intros result. subst result. unfold run_biosim_sim.
  fold (request_of omex_name simulator_spec).
  split; [|split; [|split; [|split; [|split; [|split]]]]].
  - intros f st reason res v Hnone -> -> Hst Hv. unfold raise_for_status.
    destruct (Z.leb_spec 400 st) as [|_]; [lia|].
    rewrite Hnone. unfold getitem. rewrite Hv. simpl. split; [done|].
    by intros ->.
  - destruct (open_rb local_omex_path) as [f|e]; [|by left].
    destruct (api f _) as [m|st reason res] eqn:Hapi; [by left|].
    unfold raise_for_status.
    destruct (Z.leb_spec 400 st) as [|Hlt]; [by left|].
    destruct simulator_spec as [sim [v|]]; simpl; [by left|].
    unfold getitem.
    destruct (res !! "simulatorVersion") as [v|] eqn:Hv; simpl; [|by left].
    right. exists f, st, reason, res, v. by repeat split.
  - intros v Hv.
    destruct (open_rb local_omex_path) as [f|e]; [|done].
    destruct (api f _) as [m|st reason res]; [done|].
    destruct (raise_for_status st reason); [|done].
    by rewrite Hv.
  - by intros e ->.
  - by intros f message -> ->.
  - intros f st reason res -> -> Hst. unfold raise_for_status.
    by rewrite (proj2 (Z.leb_le 400 st) Hst).
  - intros f st reason res Hnone -> -> Hst Hv. unfold raise_for_status.
    destruct (Z.leb_spec 400 st) as [|_]; [lia|].
    rewrite Hnone. unfold getitem. by rewrite Hv.
Qed.

(** ** A sample remote *)

Example run_biosim_sim_latest :
  run_biosim_sim sample_open sample_submit_api "/tmp/model.omex" "model.omex"
    copasi_latest
  = (Return {| id := "67817a2e1f52f47f628af971"; name := "model.omex";
               Biosim1Client.simulator := "copasi";
               simulatorVersion := "4.45.296";
               simulatorDigest := Some "sha256:7c9cd076eeec";
               status := CREATED |},
     {| simulator := "copasi"; version := Some "4.45.296" |}).
Proof. vm_compute. reflexivity. Qed.

Lemma run_biosim_sim_sends_version_or_latest_witness :
  run_biosim_sim sample_open sample_submit_api "/tmp/model.omex" "model.omex"
    copasi_latest
  = run_biosim_sim sample_open
      (fun f request =>
         if Py.eqb (Models.simulatorVersion request) "latest"
         then sample_submit_api f request else refusing_api f request)
      "/tmp/model.omex" "model.omex" copasi_latest.
Proof.
  apply (run_biosim_sim_sends_version_or_latest sample_open sample_submit_api
           (fun f request =>
              if Py.eqb (Models.simulatorVersion request) "latest"
              then sample_submit_api f request else refusing_api f request)
           "/tmp/model.omex" "model.omex" copasi_latest).
  intros f _. reflexivity.
Defined.

Lemma run_biosim_sim_pins_the_version_witness :
  simulator {| simulator := "copasi"; version := Some "4.45.296" |}
  = simulator copasi_latest
  /\ version {| simulator := "copasi"; version := Some "4.45.296" |}
     = Some "4.45.296".
Proof.
  apply (run_biosim_sim_pins_the_version sample_open sample_submit_api
           "/tmp/model.omex" "model.omex" copasi_latest
           {| simulator := "copasi"; version := Some "4.45.296" |}
           {| id := "67817a2e1f52f47f628af971"; name := "model.omex";
              Biosim1Client.simulator := "copasi";
              simulatorVersion := "4.45.296";
              simulatorDigest := Some "sha256:7c9cd076eeec";
              status := CREATED |}).
  vm_compute. reflexivity.
Defined.

Lemma run_biosim_sim_changes_the_spec_once_witness :
  (run_biosim_sim sample_open partial_body_api "/tmp/model.omex" "model.omex"
     copasi_latest).2
  = {| simulator := "copasi"; version := Some "4.45.296" |}
  /\ (run_biosim_sim sample_open partial_body_api "/tmp/model.omex"
        "model.omex" copasi_latest).1
     = Raise (KeyError "id").
Proof.
  destruct (proj1 (run_biosim_sim_changes_the_spec_once sample_open
              partial_body_api "/tmp/model.omex" "model.omex" copasi_latest)
              [Byte.x50; Byte.x4b; Byte.x03; Byte.x04] 201%Z "Created"
              {["simulatorVersion" := "4.45.296"]} "4.45.296")
    as [Hspec Hraise].
  - reflexivity.
  - reflexivity.
  - reflexivity.
  - lia.
  - vm_compute. reflexivity.
  - split; [exact Hspec|]. apply Hraise. vm_compute. reflexivity.
Defined.

(** ** The file sender *)

Lemma read_chunks_nil (n : nat) : read_chunks n [] = [].
Proof. simp read_chunks. by destruct n. Qed.

Lemma read_chunks_concat (n : nat) (rest : list Byte.byte) :
  0 < n -> concat (read_chunks n rest) = rest.
Proof.
  intros Hn. funelim (read_chunks n rest).
  - destruct n; [lia|]. by destruct rest.
  - change (concat ((b :: chunk) :: read_chunks n (drop n rest)))
      with ((b :: chunk) ++ concat (read_chunks n (drop n rest))).
    rewrite H by done. rewrite <- Hread. apply take_drop.
Qed.

Lemma read_chunks_sizes (n : nat) (rest : list Byte.byte) :
  Forall (fun chunk => 0 < length chunk <= n) (read_chunks n rest).
Proof.
  funelim (read_chunks n rest); [constructor|].
  constructor; [|done]. rewrite <- Hread, length_take.
  split; [|lia]. destruct n; [done|]. destruct rest; [done|]. simpl. lia.
Qed.

Lemma read_chunks_full_before_last (n : nat) (rest : list Byte.byte)
    (i : nat) (chunk : list Byte.byte) :
  read_chunks n rest !! i = Some chunk ->
  S i < length (read_chunks n rest) ->
  length chunk = n.
Proof.
  revert i. funelim (read_chunks n rest); intros i; [by rewrite lookup_nil|].
  destruct i as [|i]; simpl.
  - intros [= <-] Hmore. rewrite <- Hread, length_take.
    destruct (drop n rest) as [|x rest'] eqn:Hdrop.
    + rewrite read_chunks_nil in Hmore. simpl in Hmore. lia.
    + assert (length (drop n rest) = S (length rest')) as Hlen
        by (by rewrite Hdrop).
      rewrite length_drop in Hlen. lia.
  - intros Hi Hmore. apply (H _ i Hi). lia.
Qed.

Lemma file_sender_opened (open_rb : string -> outcome (list Byte.byte))
    (file_name : string) (content : list Byte.byte) :
  open_rb file_name = Return content ->
  file_sender open_rb file_name = Return (read_chunks (64 * 1024) content).
Proof. intros H. unfold file_sender. rewrite H. reflexivity. Qed.

(** X12. The chunks [file_sender] yields, put end to end, are the bytes of
    the file: nothing is lost, repeated or reordered, and the generator
    ends for every file.  An empty file yields no chunk, and a file that
    cannot be opened yields none either: the error of opening is raised. *)
Theorem file_sender_chunks_reassemble
    (open_rb : string -> outcome (list Byte.byte)) (file_name : string) :
  (forall content, open_rb file_name = Return content ->
     exists chunks,
       file_sender open_rb file_name = Return chunks
       /\ concat chunks = content
       /\ (content = [] -> chunks = []))
  /\ (forall e, open_rb file_name = Raise e ->
        file_sender open_rb file_name = Raise e).
Proof.
  split.
  - intros content Hopen. exists (read_chunks (64 * 1024) content).
    split; [by apply file_sender_opened|]. split.
    + apply read_chunks_concat. apply Nat.mul_pos_pos; lia.
    + intros ->. apply read_chunks_nil.
  - intros e Hopen. unfold file_sender. by rewrite Hopen.
Qed.

(** X13. Every chunk [file_sender] yields is non-empty and has at most
    64 * 1024 bytes, and every chunk but the last has exactly that many. *)
Theorem file_sender_chunk_sizes
    (open_rb : string -> outcome (list Byte.byte)) (file_name : string)
    (chunks : list (list Byte.byte)) :
  file_sender open_rb file_name = Return chunks ->
  Forall (fun chunk => 0 < length chunk <= 64 * 1024) chunks
  /\ (forall i chunk, chunks !! i = Some chunk -> S i < length chunks ->
        length chunk = 64 * 1024).
Proof.
  destruct (open_rb file_name) as [content|e] eqn:Hopen.
  - rewrite (file_sender_opened _ _ _ Hopen). intros Hchunks.
    assert (chunks = read_chunks (64 * 1024) content) as -> by congruence.
    split.
    + apply (read_chunks_sizes (64 * 1024)).
    + intros i chunk Hi Hmore.
      exact (read_chunks_full_before_last (64 * 1024) content i chunk
               Hi Hmore).
  - unfold file_sender. by rewrite Hopen.
Qed.

Lemma file_sender_chunks_reassemble_witness :
  exists chunks,
    file_sender sample_open "/tmp/model.omex" = Return chunks
    /\ concat chunks = [Byte.x50; Byte.x4b; Byte.x03; Byte.x04]
    /\ ([Byte.x50; Byte.x4b; Byte.x03; Byte.x04] = [] -> chunks = []).
Proof.
  apply (proj1 (file_sender_chunks_reassemble sample_open "/tmp/model.omex")).
  reflexivity.
Defined.

Lemma file_sender_chunk_sizes_witness :
  Forall (fun chunk => 0 < length chunk <= 64 * 1024)
    [[Byte.x50; Byte.x4b; Byte.x03; Byte.x04]]
  /\ (forall i chunk,
        [[Byte.x50; Byte.x4b; Byte.x03; Byte.x04]] !! i = Some chunk ->
        S i < length [[Byte.x50; Byte.x4b; Byte.x03; Byte.x04]] ->
        length chunk = 64 * 1024).
Proof.
  apply (file_sender_chunk_sizes sample_open "/tmp/model.omex").
  vm_compute. reflexivity.
Defined.

End SubmitFacts.

Module GetSimRunFacts.

Import Biosim1Client Activities.

(** X8. [abort_on_not_found] masks a 404 and nothing else.  Whatever the
    flag, the [get_sim_run] activity raises the connection error of an
    unreachable remote and the response error of any status of 400 or
    more other than 404, and on a status below 400 it gives exactly what
    the REST client gives: the run of the body, or the error of a body it
    cannot read. *)
Theorem get_sim_run_masks_only_404
    (api : BiosimServiceRest.RunsApi) (get_sim_run_input : GetSimRunInput) :
  let path := "/runs/" +:+ biosim_run_id get_sim_run_input in
  (forall message, api path = Unreachable message ->
     get_sim_run api get_sim_run_input = Raise (ClientConnectionError message))
  /\ (forall http_status reason res,
        api path = Response http_status reason res ->
        (400 <= http_status)%Z -> http_status <> 404%Z ->
        get_sim_run api get_sim_run_input
        = Raise (ClientResponseError http_status reason))
  /\ (forall http_status reason res,
        api path = Response http_status reason res ->
        (http_status < 400)%Z ->
        get_sim_run api get_sim_run_input
        = BiosimServiceRest.get_sim_run api (biosim_run_id get_sim_run_input)
        /\ forall status message,
             get_sim_run api get_sim_run_input
             <> Raise (ClientResponseError status message)).
Proof.
  intros path. subst path. unfold get_sim_run, BiosimServiceRest.get_sim_run.
  split; [|split].
  - intros message ->. done.
  - intros st reason res -> Hst Hne. unfold raise_for_status.
    rewrite (proj2 (Z.leb_le 400 st) Hst). simpl.
    by rewrite (bool_decide_eq_false_2 _ Hne).
  - intros st reason res -> Hst. unfold raise_for_status.
    rewrite (proj2 (Z.leb_gt 400 st) Hst). simpl. unfold getitem.
    destruct (res !! "id"); simpl; [|by split].
    destruct (res !! "name"); simpl; [|by split].
    destruct (res !! "simulator"); simpl; [|by split].
    destruct (res !! "simulatorVersion"); simpl; [|by split].
    destruct (res !! "simulatorDigest"); simpl; [|by split].
    destruct (res !! "status") as [t|]; simpl; [|by split].
    unfold status_of_string.
    repeat (destruct (Py.eqb t _); simpl; [by split|]).
    by split.
Qed.

Lemma get_sim_run_masks_only_404_witness :
  get_sim_run (fun _ => Response 500 "Internal Server Error" ∅)
    {| biosim_run_id := "67817a2e1f52f47f628af971";
       abort_on_not_found := Some true |}
  = Raise (ClientResponseError 500 "Internal Server Error").
Proof.
  apply (proj1 (proj2 (get_sim_run_masks_only_404
           (fun _ => Response 500 "Internal Server Error" ∅)
           {| biosim_run_id := "67817a2e1f52f47f628af971";
              abort_on_not_found := Some true |}))
           500%Z "Internal Server Error" ∅).
  - reflexivity.
  - lia.
  - discriminate.
Defined.

End GetSimRunFacts.

(* ===================================================================== *)
(** * api/main.py: more on resolution and on the endpoints                *)
(* ===================================================================== *)

Module ApiMoreFacts.

Import Models Verify Api Spec SpecMore ApiMoreSamples.

Lemma split_one_piece (c : ascii) (s piece : string) :
  Py.split c s = [piece] -> s = piece /\ Py.contains c s = false.
Proof.
  revert piece. induction s as [|a s IH]; intros piece; simpl.
  - by intros [= <-].
  - destruct (Ascii.eqb a c).
    + intros [= _ H]. by apply PyFacts.split_nonempty in H.
    + destruct (Py.split c s) as [|h t] eqn:E;
        [by apply PyFacts.split_nonempty in E|].
      intros [= <- ->]. destruct (IH h eq_refl) as [-> Hc]. by split.
Qed.

(** Two pieces are the text before and after the only separator. *)
Lemma split_two_pieces (c : ascii) (s before after : string) :
  Py.split c s = [before; after] ->
  s = before +:+ String c after
  /\ Py.contains c before = false /\ Py.contains c after = false.
Proof.
  revert before. induction s as [|a s IH]; intros before; simpl; [done|].
  destruct (Ascii.eqb_spec a c) as [->|Hne].
  - intros [= <- H]. destruct (split_one_piece _ _ _ H) as [-> Hc]. by split.
  - destruct (Py.split c s) as [|h t] eqn:E; [done|].
    intros [= <- ->]. destruct (IH h eq_refl) as (-> & Hb & Ha).
    split; [done|]. split; [|done]. simpl.
    destruct (Ascii.eqb_spec a c); [done|]. exact Hb.
Qed.

Lemma resolve_simulators_Forall2 (all : list BiosimulatorVersion)
    (simulators : list string) (svs : list BiosimulatorVersion) :
  resolve_simulators all simulators = Return svs
  <-> Forall2 (fun s sv => resolve_simulator all s = Return sv) simulators svs.
Proof.
  revert svs. induction simulators as [|s rest IH]; intros svs; simpl.
  - split; [intros [= <-]; constructor|].
    intros H. apply Forall2_nil_inv_l in H. by subst.
  - split.
    + destruct (resolve_simulator all s) as [sv|e] eqn:Hs; simpl; [|done].
      destruct (resolve_simulators all rest) as [svs'|e] eqn:Hr; simpl;
        [|done].
      intros [= <-]. constructor; [done|]. by apply IH.
    + intros H.
      apply Forall2_cons_inv_l in H as (sv' & svs'' & Hsv & Hrest & ->).
      apply IH in Hrest. by rewrite Hsv, Hrest.
Qed.

(** X14. The resolution loop of [verify_omex] succeeds exactly when every
    requested simulator resolves, and then gives one catalog entry per
    request, in the order of the requests; a simulator asked for twice is
    resolved twice. *)
Theorem resolve_simulators_one_entry_per_request
    (all : list BiosimulatorVersion) (simulators : list string)
    (svs : list BiosimulatorVersion) :
  (resolve_simulators all simulators = Return svs
   <-> Forall2 (fun s sv => resolve_simulator all s = Return sv)
         simulators svs)
  /\ (resolve_simulators all simulators = Return svs ->
      length svs = length simulators).
Proof.
  split; [apply resolve_simulators_Forall2|].
  intros H. apply resolve_simulators_Forall2 in H.
  symmetry. by eapply Forall2_length.
Qed.

Lemma resolve_simulator_Return (all : list BiosimulatorVersion)
    (simulator : string) (sv : BiosimulatorVersion) :
  resolve_simulator all simulator = Return sv ->
  sv ∈ all
  /\ ((Py.contains ":" simulator = false /\ simulator = id sv)
      \/ (simulator = id sv +:+ ":" +:+ version sv
          /\ Py.contains ":" (id sv) = false
          /\ Py.contains ":" (version sv) = false)).
Proof.
  unfold resolve_simulator.
  destruct (Py.contains ":" simulator) eqn:Hc.
  - destruct (Py.split ":" simulator) as [|n [|v [|x rest]]] eqn:Hsplit;
      simpl; try done.
    rewrite ResolveFacts.first_with_id_and_version_spec.
    destruct (head _) as [found|] eqn:Hhead; [|done].
    intros [= <-].
    apply head_Some_elem_of, list_elem_of_filter in Hhead
      as [[Hid Hver] Hin].
    destruct (split_two_pieces _ _ _ _ Hsplit) as (Hs & Hn & Hv).
    split; [done|]. right. subst n v. by split.
  - simpl. rewrite ResolveFacts.last_with_id_spec.
    destruct (last _) as [found|] eqn:Hlast; [|done].
    intros [= <-].
    apply last_Some_elem_of, list_elem_of_filter in Hlast as [Hid Hin].
    split; [done|]. left. by split.
Qed.

(** X15. A simulator that resolves resolves to an entry of the catalog,
    and the request spells that entry: it is the entry's id, or the
    entry's id and version joined by one colon.  Nothing is matched by
    prefix, case or the entry's display name. *)
Theorem resolved_simulator_is_a_catalog_entry
    (all : list BiosimulatorVersion) (simulator : string)
    (sv : BiosimulatorVersion) :
  resolve_simulator all simulator = Return sv ->
  sv ∈ all
  /\ (simulator = id sv \/ simulator = id sv +:+ ":" +:+ version sv).
Proof.
  intros H. destruct (resolve_simulator_Return all simulator sv H)
    as [Hin [[_ Hs]|[Hs _]]]; auto.
Qed.

Lemma NoDup_fmap_eq {A B} (f : A -> B) (l : list A) (x y : A) :
  NoDup (map f l) -> x ∈ l -> y ∈ l -> f x = f y -> x = y.
Proof.
  induction l as [|a l IH]; simpl; [by intros _ H; apply elem_of_nil in H|].
  intros Hnd Hx Hy Hf. apply NoDup_cons in Hnd as [Hnotin Hnd].
  apply elem_of_cons in Hx as [->|Hx]; apply elem_of_cons in Hy as [->|Hy].
  - done.
  - exfalso. apply Hnotin. rewrite Hf.
    change (map f l) with (f <$> l). by apply list_elem_of_fmap_2.
  - exfalso. apply Hnotin. rewrite <- Hf.
    change (map f l) with (f <$> l). by apply list_elem_of_fmap_2.
  - by apply IH.
Qed.

(** A text with a separator splits into two pieces at least. *)
Lemma split_with_separator (c : ascii) (s : string) :
  Py.contains c s = true ->
  exists first second rest, Py.split c s = first :: second :: rest.
Proof.
  induction s as [|a s IH]; simpl; [done|].
  destruct (Ascii.eqb a c).
  - intros _. destruct (Py.split c s) as [|h t] eqn:E;
      [by apply PyFacts.split_nonempty in E|].
    by exists EmptyString, h, t.
  - intros H. destruct (IH H) as (h & h' & t & ->).
    by exists (String a h), h', t.
Qed.

(** X16. Take a name without a colon that resolves to an entry.  When the
    version of that entry has no colon either, asking again for the name
    and that version joined by a colon gives an entry with that id and
    version; it is the same entry when no two entries of the catalog share
    id and version, otherwise the pinned request may get an earlier entry
    than the name alone did.  When the version of the entry has a colon,
    the pinned request splits into more than two pieces and raises
    [ValueError]. *)
Theorem pinning_the_resolved_version
    (all : list BiosimulatorVersion) (simulator : string)
    (sv : BiosimulatorVersion) :
  Py.contains ":" simulator = false ->
  resolve_simulator all simulator = Return sv ->
  (Py.contains ":" (version sv) = false ->
   exists sv',
     resolve_simulator all (simulator +:+ ":" +:+ version sv) = Return sv'
     /\ id sv' = simulator
     /\ version sv' = version sv
     /\ (NoDup (map (fun e => (id e, version e)) all) -> sv' = sv))
  /\ (Py.contains ":" (version sv) = true ->
      resolve_simulator all (simulator +:+ ":" +:+ version sv)
      = Raise (ValueError "too many values to unpack (expected 2)")).
Proof.
  intros Hc Hres.
  assert (Hcolon : Py.contains ":" (simulator +:+ ":" +:+ version sv) = true).
  { rewrite PyFacts.contains_app. simpl. apply orb_true_r. }
  split; intros Hv.
  - destruct (resolve_simulator_Return all simulator sv Hres)
      as [Hin [[_ Hid]|[Hs _]]].
    2:{ rewrite Hs, PyFacts.contains_app in Hc. simpl in Hc.
        by rewrite orb_true_r in Hc. }
    unfold resolve_simulator.
    rewrite Hcolon, (PyFacts.split_name_version _ _ Hc Hv). simpl.
    rewrite ResolveFacts.first_with_id_and_version_spec.
    destruct (head _) as [sv'|] eqn:Hhead.
    + pose proof Hhead as Hmem.
      apply head_Some_elem_of, list_elem_of_filter in Hmem
        as [[Hid' Hver'] Hin'].
      exists sv'. repeat split; try done.
      intros Hnd. apply (NoDup_fmap_eq _ all sv' sv Hnd Hin' Hin).
      by rewrite Hid', Hver', Hid.
    + apply head_None in Hhead.
      assert (Hmem : sv ∈ filter (fun e => id e = simulator
                                           /\ version e = version sv) all).
      { apply list_elem_of_filter. by repeat split. }
      rewrite Hhead in Hmem. by apply elem_of_nil in Hmem.
  - unfold resolve_simulator. rewrite Hcolon.
    change (":" +:+ version sv) with (String ":" (version sv)).
    rewrite (PyFacts.split_at_first_separator _ _ _ Hc).
    destruct (split_with_separator _ _ Hv) as (h & h' & t & ->).
    reflexivity.
Qed.

Example pinned_request_gets_earlier_entry :
  resolve_simulator [Samples.copasi_4_45; copasi_4_45_rebuilt] "copasi"
  = Return copasi_4_45_rebuilt
  /\ resolve_simulator [Samples.copasi_4_45; copasi_4_45_rebuilt]
       "copasi:4.45.296"
     = Return Samples.copasi_4_45.
Proof. vm_compute. done. Qed.

Example colon_in_version_cannot_be_pinned :
  resolve_simulator [vcell_tagged] "vcell" = Return vcell_tagged
  /\ resolve_simulator [vcell_tagged] "vcell:7.6.0:beta"
     = Raise (ValueError "too many values to unpack (expected 2)").
Proof. vm_compute. done. Qed.

Lemma resolve_simulators_one_entry_per_request_witness :
  length [Samples.copasi_4_45; Samples.copasi_4_45; Samples.tellurium_2_2]
  = length ["copasi"; "copasi"; "tellurium:2.2.10"].
Proof.
  apply (proj2 (resolve_simulators_one_entry_per_request Samples.catalog3
           ["copasi"; "copasi"; "tellurium:2.2.10"]
           [Samples.copasi_4_45; Samples.copasi_4_45;
            Samples.tellurium_2_2])).
  reflexivity.
Defined.

Lemma resolved_simulator_is_a_catalog_entry_witness :
  Samples.copasi_4_44 ∈ Samples.catalog3
  /\ ("copasi:4.44.295" = id Samples.copasi_4_44
      \/ "copasi:4.44.295"
         = id Samples.copasi_4_44 +:+ ":" +:+ version Samples.copasi_4_44).
Proof.
  apply (resolved_simulator_is_a_catalog_entry Samples.catalog3
           "copasi:4.44.295" Samples.copasi_4_44).
  reflexivity.
Defined.

Lemma pinning_the_resolved_version_witness :
  exists sv',
    resolve_simulator Samples.catalog3
      ("copasi" +:+ ":" +:+ version Samples.copasi_4_45) = Return sv'
    /\ id sv' = "copasi"
    /\ version sv' = version Samples.copasi_4_45
    /\ (NoDup (map (fun e => (id e, version e)) Samples.catalog3) ->
        sv' = Samples.copasi_4_45).
Proof.
  apply (proj1 (pinning_the_resolved_version Samples.catalog3 "copasi"
                  Samples.copasi_4_45 eq_refl eq_refl)).
  reflexivity.
Defined.

(** X17. [verify_omex] stores the upload before it looks at the
    simulators.  When the catalog call fails, or a simulator does not
    resolve, the endpoint raises that failure and the world is as before
    but for the archive store, which keeps the upload: no UUID was drawn,
    no workflow started. *)
Theorem rejected_verify_omex_keeps_only_the_upload
    (hash_bytes_md5 : list Byte.byte -> string)
    (uploaded_file : Omex.UploadFile) (workflow_id_prefix : string)
    (simulators : list string) (include_outputs : bool)
    (user_description : string) (rel_tol abs_tol_min abs_tol_scale : Q)
    (cache_buster : string) (observables : option (list string))
    (w : World) (e : exc) :
  simulator_versions_reply w = Raise e
  \/ (exists all, simulator_versions_reply w = Return all
                  /\ resolve_simulators all simulators = Raise e) ->
  verify_omex hash_bytes_md5 uploaded_file workflow_id_prefix simulators
    include_outputs user_description rel_tol abs_tol_min abs_tol_scale
    cache_buster observables w
  = (Raise e,
     with_omex_store (store_after_upload hash_bytes_md5 uploaded_file w) w).
Proof.
  intros H.
  unfold verify_omex, mbind, M_bind, get_cached_omex_file_from_upload,
    get_simulator_versions, lift, store_after_upload, with_omex_store.
  destruct (Omex.get_cached_omex_file_from_upload _ _ _ _) as [o st].
  simpl. destruct H as [Hcat|(all & Hcat & Hres)].
  - rewrite Hcat. by rewrite <- Hcat.
  - rewrite Hcat, Hres. by rewrite <- Hcat.
Qed.

(** X18. When the workflow service refuses the start, both endpoints
    raise the service's exception as it is, not an [HTTPException]; the
    UUID that was drawn is spent and no workflow is recorded as
    started. *)
Theorem refused_start_is_raised_unchanged
    (hash_bytes_md5 : list Byte.byte -> string)
    (uploaded_file : Omex.UploadFile) (workflow_id_prefix : string)
    (simulators biosimulations_run_ids : list string) (include_outputs : bool)
    (user_description : string) (rel_tol abs_tol_min abs_tol_scale : Q)
    (cache_buster : string) (observables : option (list string))
    (w : World) (e : exc) :
  start_reply w (workflow_id_prefix +:+ uuid4_draws w (uuid4_drawn w))
  = Raise e ->
  verify_runs workflow_id_prefix biosimulations_run_ids include_outputs
    user_description rel_tol abs_tol_min abs_tol_scale observables w
  = (Raise e, with_uuid_drawn w)
  /\ (forall all svs,
        simulator_versions_reply w = Return all ->
        resolve_simulators all simulators = Return svs ->
        verify_omex hash_bytes_md5 uploaded_file workflow_id_prefix
          simulators include_outputs user_description rel_tol abs_tol_min
          abs_tol_scale cache_buster observables w
        = (Raise e,
           with_uuid_drawn
             (with_omex_store
                (store_after_upload hash_bytes_md5 uploaded_file w) w))).
Proof.
  intros Hstart. split.
  - unfold verify_runs, mbind, M_bind, uuid4, start_workflow, with_uuid_drawn.
    simpl. by rewrite Hstart.
  - intros all svs Hall Hres.
    unfold verify_omex, mbind, M_bind, get_cached_omex_file_from_upload,
      get_simulator_versions, lift, uuid4, start_workflow,
      store_after_upload, with_omex_store, with_uuid_drawn.
    destruct (Omex.get_cached_omex_file_from_upload _ _ _ _) as [o st].
    simpl. rewrite Hall, Hres. simpl. rewrite Hstart. by rewrite <- Hall.
Qed.

(** X19. Two requests in a row get the next two draws of the UUID
    generator: after [verify_runs] has returned for a first request, a
    second one is given the following draw, and the workflow service has
    the two workflows in the order of the requests.  With one prefix the
    two workflow ids differ as soon as the two draws do. *)
Theorem successive_requests_take_successive_uuids
    (prefix1 prefix2 : string) (ids1 ids2 : list string)
    (include_outputs : bool) (user_description : string)
    (rel_tol abs_tol_min abs_tol_scale : Q)
    (observables : option (list string)) (w : World)
    (run_id1 run_id2 : string) :
  let draw1 := uuid4_draws w (uuid4_drawn w) in
  let draw2 := uuid4_draws w (S (uuid4_drawn w)) in
  start_reply w (prefix1 +:+ draw1) = Return run_id1 ->
  start_reply w (prefix2 +:+ draw2) = Return run_id2 ->
  let first := verify_runs prefix1 ids1 include_outputs user_description
                 rel_tol abs_tol_min abs_tol_scale observables w in
  let second := verify_runs prefix2 ids2 include_outputs user_description
                  rel_tol abs_tol_min abs_tol_scale observables first.2 in
  workflow_id <$> (match first.1 with Return o => Some o | Raise _ => None end)
  = Some (prefix1 +:+ draw1)
  /\ workflow_id <$> (match second.1 with Return o => Some o | Raise _ => None end)
     = Some (prefix2 +:+ draw2)
  /\ map started_id (started second.2)
     = map started_id (started w) ++ [prefix1 +:+ draw1; prefix2 +:+ draw2]
  /\ (prefix1 = prefix2 -> draw1 <> draw2 ->
      prefix1 +:+ draw1 <> prefix2 +:+ draw2).
Proof.
  intros draw1 draw2 H1 H2 first second.
  destruct (ApiFacts.verify_runs_dispatches prefix1 ids1 include_outputs
              user_description rel_tol abs_tol_min abs_tol_scale observables
              w run_id1 H1) as (w1 & Hrun1 & Hdrawn1 & Hstarted1).
  assert (Hw1 : uuid4_draws w1 = uuid4_draws w /\ start_reply w1 = start_reply w).
  { assert (Hsnd : w1 = first.2) by (subst first; by rewrite Hrun1).
    rewrite Hsnd. subst first.
    unfold verify_runs, mbind, M_bind, uuid4, start_workflow, assert, lift,
      datetime_now, mret, M_ret.
    simpl. fold draw1. rewrite H1. simpl. rewrite PyFacts.eqb_refl. done. }
  destruct Hw1 as [Hdraws Hreply].
  assert (H2' : start_reply w1 (prefix2 +:+ uuid4_draws w1 (uuid4_drawn w1))
                = Return run_id2).
  { by rewrite Hreply, Hdraws, Hdrawn1. }
  destruct (ApiFacts.verify_runs_dispatches prefix2 ids2 include_outputs
              user_description rel_tol abs_tol_min abs_tol_scale observables
              w1 run_id2 H2') as (w2 & Hrun2 & Hdrawn2 & Hstarted2).
  subst second. subst first. rewrite Hrun1. simpl. rewrite Hrun2. simpl.
  rewrite Hdraws, Hdrawn1.
  split; [done|]. split; [done|]. split.
  - rewrite Hstarted2, Hstarted1, !map_app. simpl.
    rewrite Hdraws, Hdrawn1. by rewrite <- app_assoc.
  - intros -> Hne Heq. apply Hne. by apply PyFacts.append_inj_r in Heq.
Qed.

(** X20. Neither endpoint asks for a non-empty list.  [verify_omex] with no
    simulator at all passes the resolution, whatever the catalog holds,
    and starts a workflow with no simulator to run; [verify_runs] with no
    run id starts a workflow with no run to compare. *)
Theorem empty_lists_are_dispatched
    (hash_bytes_md5 : list Byte.byte -> string)
    (uploaded_file : Omex.UploadFile) (workflow_id_prefix : string)
    (include_outputs : bool) (user_description : string)
    (rel_tol abs_tol_min abs_tol_scale : Q)
    (cache_buster : string) (observables : option (list string))
    (w : World) (all : list BiosimulatorVersion) (run_id : string) :
  simulator_versions_reply w = Return all ->
  start_reply w (workflow_id_prefix +:+ uuid4_draws w (uuid4_drawn w))
  = Return run_id ->
  (exists w' args,
     (verify_omex hash_bytes_md5 uploaded_file workflow_id_prefix []
        include_outputs user_description rel_tol abs_tol_min abs_tol_scale
        cache_buster observables w).2 = w'
     /\ Py.returns (verify_omex hash_bytes_md5 uploaded_file
                      workflow_id_prefix [] include_outputs user_description
                      rel_tol abs_tol_min abs_tol_scale cache_buster
                      observables w).1 = true
     /\ started w'
        = started w
          ++ [{| started_workflow := "OmexVerifyWorkflow.run";
                 started_args := OmexVerifyArgs args;
                 started_task_queue := "verification_tasks";
                 started_id :=
                   workflow_id_prefix +:+ uuid4_draws w (uuid4_drawn w) |}]
     /\ requested_simulators args = [])
  /\ (exists w',
        (verify_runs workflow_id_prefix [] include_outputs user_description
           rel_tol abs_tol_min abs_tol_scale observables w).2 = w'
        /\ Py.returns (verify_runs workflow_id_prefix [] include_outputs
                         user_description rel_tol abs_tol_min abs_tol_scale
                         observables w).1 = true
        /\ started w'
           = started w
             ++ [{| started_workflow := "RunsVerifyWorkflow.run";
                    started_args :=
                      RunsVerifyArgs
                        {| biosimulations_run_ids := [];
                           runs_compare_settings :=
                             settings_of include_outputs user_description
                               rel_tol abs_tol_min abs_tol_scale
                               observables |};
                    started_task_queue := "verification_tasks";
                    started_id :=
                      workflow_id_prefix
                      +:+ uuid4_draws w (uuid4_drawn w) |}]).
Proof.
  intros Hall Hstart. split.
  - destruct (ApiFacts.verify_omex_dispatches hash_bytes_md5 uploaded_file
                workflow_id_prefix [] include_outputs user_description
                rel_tol abs_tol_min abs_tol_scale cache_buster observables
                w all [] run_id Hall eq_refl Hstart)
      as (w' & Hrun & _ & args & Hstarted & Hsims & _).
    exists w', args. rewrite Hrun. by repeat split.
  - destruct (ApiFacts.verify_runs_dispatches workflow_id_prefix []
                include_outputs user_description rel_tol abs_tol_min
                abs_tol_scale observables w run_id Hstart)
      as (w' & Hrun & _ & Hstarted).
    exists w'. rewrite Hrun. by repeat split.
Qed.

End ApiMoreFacts.

Module ApiMoreWitnesses.

Import Models Verify Api Spec SpecMore Samples ApiMoreSamples ApiMoreFacts.

Lemma rejected_verify_omex_keeps_only_the_upload_witness :
  verify_omex sample_hash sample_upload "omex-verification-" ["copasi"]
    false "my-omex-compare" default_rel_tol default_abs_tol_min
    default_abs_tol_scale "0" None catalog_down
  = (Raise (ClientConnectionError "Cannot connect to host"),
     with_omex_store (store_after_upload sample_hash sample_upload
                        catalog_down) catalog_down).
Proof.
  apply (rejected_verify_omex_keeps_only_the_upload sample_hash sample_upload
           "omex-verification-" ["copasi"] false "my-omex-compare"
           default_rel_tol default_abs_tol_min default_abs_tol_scale "0" None
           catalog_down (ClientConnectionError "Cannot connect to host")).
  left. reflexivity.
Defined.

Example rejected_upload_is_in_the_store :
  length (Omex.catalog (store_after_upload sample_hash sample_upload
                          catalog_down)) = 1.
Proof. vm_compute. reflexivity. Qed.

Lemma refused_start_is_raised_unchanged_witness :
  verify_runs "runs-verification-"
    ["67817a2e1f52f47f628af971"; "67817a2eba5a3f02b9f2938d"] false
    "my-verify-job" default_rel_tol default_abs_tol_min default_abs_tol_scale
    None temporal_down
  = (Raise (RPCError "failed to connect"), with_uuid_drawn temporal_down).
Proof.
  apply (proj1 (refused_start_is_raised_unchanged sample_hash sample_upload
           "runs-verification-" []
           ["67817a2e1f52f47f628af971"; "67817a2eba5a3f02b9f2938d"] false
           "my-verify-job" default_rel_tol default_abs_tol_min
           default_abs_tol_scale "0" None temporal_down
           (RPCError "failed to connect") eq_refl)).
Defined.

Lemma successive_requests_take_successive_uuids_witness :
  map started_id
    (started
       (verify_runs "runs-verification-" ["67817a2eba5a3f02b9f2938d"] false
          "my-verify-job" default_rel_tol default_abs_tol_min
          default_abs_tol_scale None
          (verify_runs "runs-verification-" ["67817a2e1f52f47f628af971"]
             false "my-verify-job" default_rel_tol default_abs_tol_min
             default_abs_tol_scale None sample_world).2).2)
  = map started_id (started sample_world)
    ++ ["runs-verification-"
        +:+ uuid4_draws sample_world (uuid4_drawn sample_world);
        "runs-verification-"
        +:+ uuid4_draws sample_world (S (uuid4_drawn sample_world))].
Proof.
  apply (proj1 (proj2 (proj2
           (successive_requests_take_successive_uuids "runs-verification-"
              "runs-verification-" ["67817a2e1f52f47f628af971"]
              ["67817a2eba5a3f02b9f2938d"] false "my-verify-job"
              default_rel_tol default_abs_tol_min default_abs_tol_scale None
              sample_world "0195c2d4-7e3b-7a10-b1c2-d3e4f5a6b7c8"
              "0195c2d4-7e3b-7a10-b1c2-d3e4f5a6b7c8" eq_refl eq_refl)))).
Defined.

Lemma empty_lists_are_dispatched_witness :
  exists w',
    (verify_runs "runs-verification-" [] false "my-verify-job"
       default_rel_tol default_abs_tol_min default_abs_tol_scale None
       sample_world).2 = w'
    /\ Py.returns (verify_runs "runs-verification-" [] false "my-verify-job"
                     default_rel_tol default_abs_tol_min
                     default_abs_tol_scale None sample_world).1 = true
    /\ started w'
       = started sample_world
         ++ [{| started_workflow := "RunsVerifyWorkflow.run";
                started_args :=
                  RunsVerifyArgs
                    {| biosimulations_run_ids := [];
                       runs_compare_settings :=
                         settings_of false "my-verify-job" default_rel_tol
                           default_abs_tol_min default_abs_tol_scale None |};
                started_task_queue := "verification_tasks";
                started_id :=
                  "runs-verification-"
                  +:+ uuid4_draws sample_world (uuid4_drawn sample_world) |}].
Proof.
  apply (proj2 (empty_lists_are_dispatched sample_hash sample_upload
           "runs-verification-" false "my-verify-job" default_rel_tol
           default_abs_tol_min default_abs_tol_scale "0" None sample_world
           catalog3 "0195c2d4-7e3b-7a10-b1c2-d3e4f5a6b7c8"
           eq_refl eq_refl)).
Defined.

End ApiMoreWitnesses.

(* ===================================================================== *)
(** * biosim_activities.py: [submit_biosim_sim]                           *)
(* ===================================================================== *)

Module SubmitActivityFacts.

Import ActivitiesMore SubmitActivitySamples.

(** X21. [submit_biosim_sim] removes the archive it downloaded only when
    the submission returns: the local files are then as they were but for
    the download path, which is gone.  When the submission raises, the
    exception is raised on and the downloaded archive stays behind.  With
    a service that is not initialised, or a download that fails, nothing
    is written at all. *)
Theorem submit_biosim_sim_removes_download_on_success_only
    (service : BiosimService) (downloads : FileService)
    (input : SubmitBiosimSimInput) (files : Files) :
  (forall local_omex_path content,
     downloads (omex_s3_file (source_omex input))
     = Return (local_omex_path, content) ->
     let attempt :=
       (service (<[local_omex_path := content]> files) local_omex_path
          (name (source_omex input)) (simulator_spec input)).1 in
     (forall run, attempt = Return run ->
        submit_biosim_sim (Some service) (Some downloads) input files
        = (inl run, delete local_omex_path files)
        /\ (files !! local_omex_path = None ->
            delete local_omex_path files = files))
     /\ (forall e, attempt = Raise e ->
           submit_biosim_sim (Some service) (Some downloads) input files
           = (inr (Raised e), <[local_omex_path := content]> files)))
  /\ (forall e, downloads (omex_s3_file (source_omex input)) = Raise e ->
        submit_biosim_sim (Some service) (Some downloads) input files
        = (inr (Raised e), files))
  /\ submit_biosim_sim None (Some downloads) input files
     = (inr (Exception "Biosim service is not initialized"), files)
  /\ submit_biosim_sim (Some service) None input files
     = (inr (Exception "File service is not initialized"), files).
Proof.
  split; [|split; [|split; reflexivity]].
  - intros local_omex_path content Hdown attempt. subst attempt. split.
    + intros run Hrun. unfold submit_biosim_sim. rewrite Hdown, Hrun.
      split; [f_equal; apply delete_insert_eq|apply delete_id].
    + intros e He. unfold submit_biosim_sim. by rewrite Hdown, He.
  - intros e He. unfold submit_biosim_sim. by rewrite He.
Qed.

Lemma submit_biosim_sim_removes_download_on_success_only_witness :
  submit_biosim_sim
    (Some (rest_service sample_os_error SubmitSamples.refusing_api))
    (Some sample_downloads) sample_input ∅
  = (inr (Raised (ClientResponseError 503 "Service Unavailable")),
     <["/tmp/tmp8k2x.omex" := [Byte.x50; Byte.x4b; Byte.x03; Byte.x04]]> ∅).
Proof.
  apply (proj2 (proj1 (submit_biosim_sim_removes_download_on_success_only
           (rest_service sample_os_error SubmitSamples.refusing_api)
           sample_downloads sample_input ∅)
           "/tmp/tmp8k2x.omex" [Byte.x50; Byte.x4b; Byte.x03; Byte.x04]
           eq_refl)).
  vm_compute. reflexivity.
Defined.

Example submit_biosim_sim_success_leaves_no_file :
  submit_biosim_sim
    (Some (rest_service sample_os_error SubmitSamples.sample_submit_api))
    (Some sample_downloads) sample_input ∅
  = (inl {| Biosim1Client.id := "67817a2e1f52f47f628af971";
            Biosim1Client.name := "model.omex";
            Biosim1Client.simulator := "copasi";
            Biosim1Client.simulatorVersion := "4.45.296";
            Biosim1Client.simulatorDigest := Some "sha256:7c9cd076eeec";
            Biosim1Client.status := Models.CREATED |}, ∅).
Proof. vm_compute. reflexivity. Qed.

End SubmitActivityFacts.
